(** * Expense tracker: the persistence and query contract

    A shallow embedding of [data_handler.py] (class [DataHandler], the
    Store) and [expense_manager.py] (class [ExpenseManager], the Ledger),
    followed by the properties of the two components.

    Conventions of the embedding.
    - A calendar date is its day number ([Z]); the ISO text sent by the
      form and the value stored in the [date] column denote the same day.
    - An amount is an exact number ([Z], minor currency units); rounding of
      binary floating point is not represented, and [float(x)] is the
      identity on numbers.  Nothing is stated below about the values of
      sums of amounts, which the code computes in floating point.
    - The backend is PostgreSQL, which the store names: unquoted
      identifiers of a query come back in lower case, and a sequence that
      a refused row has drawn from is not set back.
    - A Python argument that may be [None] is an [option]; truthiness
      ([not x]) is written out per type.
    - The database is a value of type [World]: the rows of the [expenses]
      table in storage order, the next value of the [id] sequence, and a
      schedule of backend faults.  Every interaction with the engine
      (connecting, executing, committing) consumes one entry of the
      schedule and raises when the entry is [true]; an exhausted schedule
      means a healthy backend.  [calls] is a ghost log of the [DataHandler]
      methods entered, used to state that no store call was made. *)

From Stdlib Require Import ZArith List String Ascii Bool Lia.
From Stdlib Require Import Permutation Sorted.
Import ListNotations.
Local Open Scope string_scope.
Local Open Scope list_scope.
Local Open Scope Z_scope.

(** ** Data model *)

Definition Day := Z.

(** A row of a frame with the columns [Date], [Amount], [Category],
    [Description]. *)
Record Expense := mkExpense {
  Date : Day;
  Amount : Z;
  Category : string;
  Description : string
}.

(** A row of the [expenses] table: [id, date, amount, category,
    description]; also a row of the frame with the columns [ID], [Date],
    [Amount], [Category], [Description]. *)
Record Row := mkRow {
  row_id : Z;
  row_date : Day;
  row_amount : Z;
  row_category : string;
  row_description : string
}.

(** [df[['date', 'amount', 'category', 'description']]] followed by the
    renaming of the four columns. *)
Definition project (r : Row) : Expense :=
  mkExpense (row_date r) (row_amount r) (row_category r) (row_description r).

(** A frame handed to [save_data]: the labels of its columns; for the
    four expense columns, the values of its rows; and, for a frame with a
    column labelled [id] in some letter case, the values of that column,
    one per row.  Other labels carry no values here. *)
Record DataFrame := mkFrame {
  columns : list string;
  records : list Expense;
  ids : list Z
}.

Definition expected_columns : list string :=
  ["Date"; "Amount"; "Category"; "Description"].

Definition frame_of (l : list Expense) : DataFrame :=
  mkFrame expected_columns l [].

Inductive Exn :=
| BackendError
| ValueError
| TypeError
| IndexError
| KeyError
| ArgumentError.

Inductive StoreCall :=
| call_load_data
| call_save_data (df : DataFrame)
| call_add_expense (date : option Day) (amount : option Z)
    (category description : option string)
| call_delete_expense_by_id (expense_id : Z).

Record World := mkWorld {
  table : list Row;
  next_id : Z;
  faults : list bool;
  calls : list StoreCall
}.

(** ** Computations that read and write the world and may raise *)

Inductive Outcome (A : Type) :=
| Ok (a : A)
| Raised (e : Exn).
Arguments Ok {A} a.
Arguments Raised {A} e.

Definition Py (A : Type) : Type := World -> Outcome A * World.

Definition ret {A} (a : A) : Py A := fun w => (Ok a, w).

Definition raise {A} (e : Exn) : Py A := fun w => (Raised e, w).

Definition bind {A B} (m : Py A) (k : A -> Py B) : Py B :=
  fun w =>
    match m w with
    | (Ok a, w') => k a w'
    | (Raised e, w') => (Raised e, w')
    end.

(** [try: m  except Exception: h] *)
Definition try_except {A} (m : Py A) (h : Exn -> Py A) : Py A :=
  fun w =>
    match m w with
    | (Ok a, w') => (Ok a, w')
    | (Raised e, w') => h e w'
    end.

Declare Scope py_scope.
Delimit Scope py_scope with py.
Notation "x <- m ;; k" := (bind m (fun x => k))
  (at level 61, m at next level, right associativity) : py_scope.
Notation "m ;; k" := (bind m (fun _ => k))
  (at level 61, right associativity) : py_scope.
Local Open Scope py_scope.

(** ** The backend *)

(** One interaction with the engine. *)
Definition fault_point : Py unit :=
  fun w =>
    match faults w with
    | [] => (Ok tt, w)
    | b :: fs =>
        let w' := mkWorld (table w) (next_id w) fs (calls w) in
        if b then (Raised BackendError, w') else (Ok tt, w')
    end.

Definition log_call (c : StoreCall) : Py unit :=
  fun w => (Ok tt, mkWorld (table w) (next_id w) (faults w) (calls w ++ [c])).

Definition get_table : Py (list Row) := fun w => (Ok (table w), w).

Definition put_table (t : list Row) (n : Z) : Py unit :=
  fun w => (Ok tt, mkWorld t n (faults w) (calls w)).

Definition get_next_id : Py Z := fun w => (Ok (next_id w), w).

(** Stable insertion sort; [leb x y] says that [x] may stand before [y]. *)
Fixpoint insert_sorted {A} (leb : A -> A -> bool) (x : A) (l : list A) : list A :=
  match l with
  | [] => [x]
  | y :: l' => if leb x y then x :: y :: l' else y :: insert_sorted leb x l'
  end.

Fixpoint isort {A} (leb : A -> A -> bool) (l : list A) : list A :=
  match l with
  | [] => []
  | x :: l' => insert_sorted leb x (isort leb l')
  end.

(** [ORDER BY date DESC].  SQL leaves the order of rows of one date open;
    the embedding keeps them in storage order. *)
Definition date_desc (r1 r2 : Row) : bool := row_date r2 <=? row_date r1.

Definition order_by_date_desc (t : list Row) : list Row := isort date_desc t.

(** [pd.read_sql(query, engine)] for the two queries of the program, both
    over all rows [ORDER BY date DESC]. *)
Definition read_sql : Py (list Row) :=
  fault_point ;;
  fault_point ;;
  t <- get_table ;;
  ret (order_by_date_desc t).

(** [with engine.connect() as connection: connection.execute(stmt);
    connection.commit()]: the change [effect] is visible once the commit
    went through; a raise before that leaves the table as it was. *)
Definition execute_commit (effect : Py unit) : Py unit :=
  fault_point ;;
  fault_point ;;
  fault_point ;;
  effect.

(** Rows with identifiers drawn from the sequence, in order. *)
Fixpoint assign_ids (n : Z) (l : list Expense) : list Row :=
  match l with
  | [] => []
  | e :: l' =>
      mkRow n (Date e) (Amount e) (Category e) (Description e)
        :: assign_ids (n + 1) l'
  end.

(** [INSERT INTO expenses (date, amount, category, description) VALUES ...]
    for a list of rows, which draw their identifiers from the sequence. *)
Definition sql_insert (l : list Expense) : Py unit :=
  t <- get_table ;;
  n <- get_next_id ;;
  put_table (t ++ assign_ids n l) (n + Z.of_nat (List.length l)).

(** [DELETE FROM expenses WHERE id = :id] *)
Definition sql_delete (expense_id : Z) : Py unit :=
  t <- get_table ;;
  n <- get_next_id ;;
  put_table (filter (fun r => negb (row_id r =? expense_id)) t) n.

(** [TRUNCATE TABLE expenses]; the sequence is not restarted. *)
Definition sql_truncate : Py unit :=
  n <- get_next_id ;;
  put_table [] n.

(** The same block for a statement the backend may refuse for what it
    says: [statement] is its execution, between the second and the third
    interaction, and [effect] what the commit makes visible. *)
Definition execute_commit_checked {A} (statement : Py A) (effect : A -> Py unit)
    : Py unit :=
  fault_point ;;
  fault_point ;;
  a <- statement ;;
  fault_point ;;
  effect a.

(** Modelled from the spec: the declaration of the [expenses] table is not
    part of the sources; its four data columns are [required], so an
    [INSERT] binding [None] to one of them is refused by the backend.  The
    identifier the refused row drew from the sequence is spent. *)
Definition bind_parameters (date : option Day) (amount : option Z)
    (category description : option string) : Py Expense :=
  match date, amount, category, description with
  | Some d, Some a, Some c, Some s => ret (mkExpense d a c s)
  | _, _, _, _ =>
      t <- get_table ;;
      n <- get_next_id ;;
      put_table t (n + 1) ;;
      raise BackendError
  end.

(** [col.lower()] *)
Definition lower_ascii (c : ascii) : ascii :=
  let n := nat_of_ascii c in
  if ((65 <=? n)%nat && (n <=? 90)%nat)%bool then ascii_of_nat (n + 32) else c.

Fixpoint lower (s : string) : string :=
  match s with
  | EmptyString => EmptyString
  | String c s' => String (lower_ascii c) (lower s')
  end.

Definition data_columns : list string :=
  ["date"; "amount"; "category"; "description"].

Definition mem (s : string) (l : list string) : bool := existsb (String.eqb s) l.

(** [len(df)] *)
Definition len {A} (df : list A) : Z := Z.of_nat (List.length df).

(** [df.empty] *)
Definition empty {A} (df : list A) : bool :=
  match df with [] => true | _ :: _ => false end.

(** Modelled from the spec: the columns of the [expenses] table, [id]
    being its primary key. *)
Definition table_columns : list string := "id" :: data_columns.

(** No value occurs twice. *)
Fixpoint distinct {A} (eqb : A -> A -> bool) (l : list A) : bool :=
  match l with
  | [] => true
  | x :: l' => negb (existsb (eqb x) l') && distinct eqb l'
  end.

(** The rows of a frame under the identifiers of its [id] column. *)
Definition with_ids (given : list Z) (rows : list Expense) : list Row :=
  map (fun p => mkRow (fst p) (Date (snd p)) (Amount (snd p))
                  (Category (snd p)) (Description (snd p)))
    (combine given rows).

(** [INSERT INTO expenses (id, date, amount, category, description) VALUES
    ...]: the rows keep the identifiers given and the sequence is left
    alone. *)
Definition sql_insert_with_ids (rows : list Row) : Py unit :=
  t <- get_table ;;
  n <- get_next_id ;;
  put_table (t ++ rows) n.

(** What the backend checks when it executes the [INSERT] of [to_sql]: the
    table has every column named, and identifiers that are given violate
    no primary key.  For a frame without rows no [INSERT] is sent.  The
    result says whether identifiers are given. *)
Definition to_sql_statement (df_sql : DataFrame) : Py bool :=
  if empty (records df_sql)
  then ret (mem "id" (columns df_sql))
  else if negb (forallb (fun c => mem c table_columns) (columns df_sql))
  then raise BackendError
  else if mem "id" (columns df_sql)
  then
    t <- get_table ;;
    if distinct Z.eqb
         (map row_id t ++ map row_id (with_ids (ids df_sql) (records df_sql)))
    then ret true
    else raise BackendError
  else ret false.

(** [df_sql.to_sql('expenses', engine, if_exists='append', index=False)]:
    a frame in which two columns have the same name is refused before the
    backend is reached; otherwise one transaction inserts every row of
    the frame, under the identifiers of the frame when it has a column
    [id] and under identifiers drawn from the sequence otherwise. *)
Definition to_sql (df_sql : DataFrame) : Py unit :=
  if negb (distinct String.eqb (columns df_sql))
  then raise ArgumentError
  else
    execute_commit_checked (to_sql_statement df_sql)
      (fun given : bool =>
         if given
         then sql_insert_with_ids (with_ids (ids df_sql) (records df_sql))
         else sql_insert (records df_sql)).

(** ** The Store: class [DataHandler] *)

Module DataHandler.

(** The [try] block of [load_data].  [SELECT *] yields the column [id], so
    the branch that drops it is always taken. *)
Definition load_data_try : Py (list Expense) :=
  df <- read_sql ;;
  ret (map project df).

Definition load_data : Py (list Expense) :=
  log_call call_load_data ;;
  try_except load_data_try (fun _ => ret []).

(** [for col in expected_columns: if col not in df.columns: raise ValueError] *)
Fixpoint check_columns (expected cols : list string) : Py unit :=
  match expected with
  | [] => ret tt
  | col :: rest =>
      if mem col cols then check_columns rest cols else raise ValueError
  end.

Definition save_data_try (df : DataFrame) : Py bool :=
  check_columns expected_columns (columns df) ;;
  let df_sql := mkFrame (map lower (columns df)) (records df) (ids df) in
  execute_commit sql_truncate ;;
  to_sql df_sql ;;
  ret true.

Definition save_data (df : DataFrame) : Py bool :=
  log_call (call_save_data df) ;;
  try_except (save_data_try df) (fun _ => ret false).

Definition add_expense_try (date : option Day) (amount : option Z)
    (category description : option string) : Py bool :=
  execute_commit_checked (bind_parameters date amount category description)
    (fun e => sql_insert [e]) ;;
  ret true.

Definition add_expense (date : option Day) (amount : option Z)
    (category description : option string) : Py bool :=
  log_call (call_add_expense date amount category description) ;;
  try_except (add_expense_try date amount category description)
    (fun _ => ret false).

Definition delete_expense_by_id_try (expense_id : Z) : Py bool :=
  execute_commit (sql_delete expense_id) ;;
  ret true.

Definition delete_expense_by_id (expense_id : Z) : Py bool :=
  log_call (call_delete_expense_by_id expense_id) ;;
  try_except (delete_expense_by_id_try expense_id) (fun _ => ret false).

End DataHandler.

(** ** The Ledger: class [ExpenseManager] *)

(** Truthiness of the arguments of [add_expense]. *)
Definition truthy_date (d : option Day) : bool :=
  match d with Some _ => true | None => false end.

Definition truthy_num (a : option Z) : bool :=
  match a with Some z => negb (z =? 0) | None => false end.

Definition truthy_str (s : option string) : bool :=
  match s with Some s' => negb (s' =? "")%string | None => false end.

(** [float(amount)] *)
Definition float (amount : option Z) : Py Z :=
  match amount with
  | Some z => ret z
  | None => raise TypeError
  end.

(** [df.iloc[index]]: positions count from the end when negative, and a
    position outside [-len(df) .. len(df) - 1] raises [IndexError]. *)
Definition iloc {A} (df : list A) (index : Z) : Py A :=
  let pos := if index <? 0 then len df + index else index in
  if pos <? 0 then raise IndexError
  else match nth_error df (Z.to_nat pos) with
       | Some r => ret r
       | None => raise IndexError
       end.

Module ExpenseManager.

Definition add_expense (date : option Day) (amount : option Z)
    (category description : option string) : Py bool :=
  if negb (truthy_date date) || negb (truthy_num amount)
     || negb (truthy_str category) || negb (truthy_str description)
  then ret false
  else
    a <- float amount ;;
    DataHandler.add_expense date (Some a) category description.

Definition get_expenses : Py (list Expense) := DataHandler.load_data.

Definition get_expenses_with_ids : Py (list Row) :=
  try_except read_sql (fun _ => ret []).

(** The labels of the frame that [pd.read_sql] builds for the query of
    [get_expenses_with_ids]: PostgreSQL, the backend the store names,
    folds the unquoted aliases [ID], [Date], [Amount], [Category] and
    [Description] of the query to lower case. *)
Definition listing_labels : list string :=
  map lower ["ID"; "Date"; "Amount"; "Category"; "Description"].

(** [row['ID']] on a row of a frame with the labels [labels]. *)
Definition getitem_ID (labels : list string) (r : Row) : Py Z :=
  if mem "ID" labels then ret (row_id r) else raise KeyError.

(** A frame that is not empty was read from the backend, so its labels
    are [listing_labels]. *)
Definition delete_expense (index : Z) : Py bool :=
  expenses_df <- get_expenses_with_ids ;;
  if empty expenses_df || (index >=? len expenses_df)
  then ret false
  else
    r <- iloc expenses_df index ;;
    expense_id <- getitem_ID listing_labels r ;;
    DataHandler.delete_expense_by_id expense_id.

(** One [if bound: filtered_df = filtered_df[mask]] step. *)
Definition apply_if {B} (bound : option B) (mask : B -> Expense -> bool)
    (df : list Expense) : list Expense :=
  match bound with
  | Some b => filter (mask b) df
  | None => df
  end.

(** [if categories and len(categories) > 0] *)
Definition categories_given (categories : option (list string)) : option (list string) :=
  match categories with
  | Some (c :: cs) => Some (c :: cs)
  | _ => None
  end.

(** The frame is copied and its [Date] column brought to the timestamp
    type; both keep the day of every row. *)
Definition filter_expenses (start_date end_date : option Day)
    (categories : option (list string)) (min_amount max_amount : option Z)
    : Py (list Expense) :=
  expenses_df <- get_expenses ;;
  if empty expenses_df then ret expenses_df
  else
    let filtered_df := expenses_df in
    let filtered_df :=
      apply_if start_date (fun d e => Date e >=? d) filtered_df in
    let filtered_df :=
      apply_if end_date (fun d e => Date e <=? d) filtered_df in
    let filtered_df :=
      apply_if (categories_given categories)
        (fun cs e => mem (Category e) cs) filtered_df in
    let filtered_df :=
      apply_if min_amount (fun m e => Amount e >=? m) filtered_df in
    let filtered_df :=
      apply_if max_amount (fun m e => Amount e <=? m) filtered_df in
    ret filtered_df.

(** [df['Amount'].sum()] over exact amounts; the rounding of the sum of
    binary floating-point values is not represented. *)
Definition sum_amounts (df : list Expense) : Z :=
  fold_right Z.add 0 (map Amount df).

(** [df.groupby('Category')['Amount'].sum().reset_index()]: one row per
    category, the categories in ascending order. *)
Definition groupby_sum (df : list Expense) : list (string * Z) :=
  map (fun k => (k, sum_amounts (filter (fun e => (Category e =? k)%string) df)))
    (isort String.leb (nodup string_dec (map Category df))).

(** [sort_values(by='Total', ascending=False)]; rows of one total keep
    their order. *)
Definition sort_values_desc (t : list (string * Z)) : list (string * Z) :=
  isort (fun a b => snd b <=? snd a) t.

Definition get_total_by_category : Py (list (string * Z)) :=
  expenses_df <- get_expenses ;;
  if empty expenses_df then ret []
  else
    let category_totals := groupby_sum expenses_df in
    ret (sort_values_desc category_totals).

End ExpenseManager.

(** ** Vocabulary of the statements *)

(** [x] may stand before [y] in a list sorted by [leb]. *)
Definition before {A} (leb : A -> A -> bool) (x y : A) : Prop := leb x y = true.

(** The record carries the date, the amount, the category and the
    description of the row, and so leaves out its identifier only. *)
Definition shows (e : Expense) (r : Row) : Prop :=
  Date e = row_date r /\ Amount e = row_amount r /\
  Category e = row_category r /\ Description e = row_description r.

(** An empty table behind a healthy backend. *)
Definition fresh : World := mkWorld [] 1 [] [].

(** What a computation returns or raises, and the world it leaves. *)
Definition run {A} (m : Py A) (w : World) : Outcome A := fst (m w).

Definition after {A} (m : Py A) (w : World) : World := snd (m w).

(** The table of the scenario of the specification: 2024-01-01 and
    2024-01-02 as day numbers, amounts in cents. *)
Definition two_inserts : World :=
  after (ExpenseManager.add_expense (Some 19723) (Some 5000)
           (Some "Food & Dining") (Some "Lunch") ;;
         ExpenseManager.add_expense (Some 19724) (Some 2000)
           (Some "Transportation") (Some "Bus")) fresh.

(** The next [n] interactions with the engine go through. *)
Definition healthy (n : nat) (w : World) : bool :=
  forallb negb (firstn n (faults w)).

(** One of the next [n] interactions with the engine raises. *)
Definition faulty (n : nat) (w : World) : bool :=
  existsb (fun b => b) (firstn n (faults w)).

(** What a run leaves alone. *)
Definition same_table (w w' : World) : Prop :=
  table w' = table w /\ next_id w' = next_id w.

(** Unfolding of the backend primitives, and case analysis on the fault
    schedule, for the lemmas on single runs. *)
Ltac unfold_py :=
  unfold run, after, execute_commit, read_sql, to_sql,
    sql_insert, sql_delete, sql_truncate, try_except, bind, ret, raise,
    fault_point, log_call, get_table, put_table, get_next_id in *.

Ltac step_faults :=
  repeat match goal with
    | |- context [match ?l with [] => _ | _ :: _ => _ end] =>
        destruct l as [|[|] ?]; simpl in *; try discriminate
    end.

(** The world on entry of a store method, its call recorded. *)
Definition logged (c : StoreCall) (w : World) : World :=
  mkWorld (table w) (next_id w) (faults w) (calls w ++ [c]).

(** The row the four arguments make up, when none of them is [None]. *)
Definition given_expense (date : option Day) (amount : option Z)
    (category description : option string) : option Expense :=
  match date, amount, category, description with
  | Some d, Some a, Some c, Some s => Some (mkExpense d a c s)
  | _, _, _, _ => None
  end.

(** An argument is missing ([None]) or, for the two texts, empty. *)
Definition missing_or_empty (date : option Day) (amount : option Z)
    (category description : option string) : bool :=
  match date with None => true | Some _ => false end
  || match amount with None => true | Some _ => false end
  || match category with None => true | Some c => (c =? "")%string end
  || match description with None => true | Some s => (s =? "")%string end.

(** The conjunction of the predicates that were supplied, as the
    specification words it; a bound that is absent, or a set of categories
    that is absent or empty, contributes nothing. *)
Definition satisfies (start_date end_date : option Day)
    (categories : option (list string)) (min_amount max_amount : option Z)
    (e : Expense) : bool :=
  match start_date with Some d => d <=? Date e | None => true end
  && match end_date with Some d => Date e <=? d | None => true end
  && match categories with
     | Some [] | None => true
     | Some cs => existsb (fun c => (c =? Category e)%string) cs
     end
  && match min_amount with Some m => m <=? Amount e | None => true end
  && match max_amount with Some m => Amount e <=? m | None => true end.

(** No expected column is missing from the frame. *)
Definition has_expected_columns (df : DataFrame) : bool :=
  forallb (fun col => mem col (columns df)) expected_columns.

(** The [TRUNCATE] is committed: the frame passed the check of its columns
    and the three interactions of the first transaction went through. *)
Definition truncate_commits (df : DataFrame) (w : World) : bool :=
  has_expected_columns df && healthy 3 w.

(** The frame has a column whose label, in lower case, is [id]. *)
Definition carries_ids (df : DataFrame) : bool :=
  mem "id" (map lower (columns df)).

(** The rows a frame stands for: under its own identifiers when it
    carries them, under identifiers counted from [n] otherwise. *)
Definition frame_rows (n : Z) (df : DataFrame) : list Row :=
  if carries_ids df
  then with_ids (ids df) (records df)
  else assign_ids n (records df).

(** The emptied table takes the rows of the frame: in lower case no two
    labels agree; and there are no rows, or every label is then a column
    of the table and identifiers that the frame carries are pairwise
    distinct. *)
Definition insert_accepted (df : DataFrame) : bool :=
  distinct String.eqb (map lower (columns df))
  && (empty (records df)
      || (forallb (fun c => mem c table_columns) (map lower (columns df))
          && (if carries_ids df
              then distinct Z.eqb (map row_id (with_ids (ids df) (records df)))
              else true))).

(** The bulk [INSERT] is committed: the backend accepts it and the three
    interactions of the second transaction went through. *)
Definition insert_commits (df : DataFrame) (w : World) : bool :=
  insert_accepted df && forallb negb (firstn 3 (skipn 3 (faults w))).

(** A frame that carries the identifier 9 for its one row. *)
Definition frame_with_id : DataFrame :=
  mkFrame ["ID"; "Date"; "Amount"; "Category"; "Description"]
    [mkExpense 19725 700 "Other" "Stamp"] [9].

(** A table of two rows whose backend fails at the fourth interaction,
    the first one of the bulk insert. *)
Definition insert_fails : World :=
  mkWorld (table two_inserts) (next_id two_inserts) [false; false; false; true] [].

(** [op] returns, whatever the world. *)
Definition never_raises {A} (op : Py A) : Prop :=
  forall w, exists a, run op w = Ok a.

(** When the [try] block [body] of [op], entered in the world [entry w],
    raises, [op] returns [sentinel]. *)
Definition sentinel_on_raise {A} (op body : Py A) (entry : World -> World)
    (sentinel : A) : Prop :=
  forall w e, run body (entry w) = Raised e -> run op w = Ok sentinel.

(** When one of the next [n] interactions with the engine raises, [op]
    returns [sentinel]. *)
Definition sentinel_on_fault {A} (op : Py A) (n : nat) (sentinel : A) : Prop :=
  forall w, faulty n w = true -> run op w = Ok sentinel.

(** A table of two rows behind a backend that refuses the connection. *)
Definition backend_down : World :=
  mkWorld (table two_inserts) (next_id two_inserts) [true] [].

(** ** The presentation script [app.py] *)

(** What the page shows after an action. *)
Inductive Message :=
| st_error (text : string)
| st_success (text : string)
| st_info (text : string).

Section AddForm.

(** [str.strip]; the statements hold whatever it removes. *)
Variable strip : string -> string.


End AddForm.

(** The button [Delete Selected Expense]. *)
Definition delete_button (expense_to_delete : Z) : Py Message :=
  deleted <- ExpenseManager.delete_expense expense_to_delete ;;
  if deleted : bool then ret (st_success "Expense deleted successfully!")
  else ret (st_error "Failed to delete expense.").

(** [column.min()] and [column.max()] of a column that has a first value. *)
Definition column_min (x : Z) (l : list Z) : Z := fold_right Z.min x l.

Definition column_max (x : Z) (l : list Z) : Z := fold_right Z.max x l.

(** [1.0] in the unit of the amounts. *)
Definition one_unit : Z := 100.

(** The values the widgets of the tab [Filters] start with, for a frame
    whose first row is [e]: the dates and the amounts that occur bound the
    two ranges, the upper amount moved up by [1.0] when the two agree, and
    no category is selected. *)
Definition default_widgets (e : Expense) (df : list Expense)
    : Day * Day * list string * (Z * Z) :=
  let min_date := column_min (Date e) (map Date df) in
  let max_date := column_max (Date e) (map Date df) in
  let min_amount := column_min (Amount e) (map Amount df) in
  let max_amount := column_max (Amount e) (map Amount df) in
  let max_amount :=
    if min_amount =? max_amount then max_amount + one_unit else max_amount in
  (min_date, max_date, [], (min_amount, max_amount)).

(** [expense_manager.filter_expenses(...)] as the tab calls it with the
    values of its widgets. *)
Definition filter_tab_apply (widgets : Day * Day * list string * (Z * Z))
    : Py (list Expense) :=
  let '(start_date, end_date, selected_categories, amount_range) := widgets in
  ExpenseManager.filter_expenses (Some start_date) (Some end_date)
    (if empty selected_categories then None else Some selected_categories)
    (Some (fst amount_range)) (Some (snd amount_range)).

(** The tab [Filters] with its widgets untouched; [None] stands for the
    note that nothing is recorded yet. *)
Definition filter_tab_default : Py (option (list Expense)) :=
  expenses_df <- ExpenseManager.get_expenses ;;
  match expenses_df with
  | [] => ret None
  | e :: df =>
      filtered_df <- filter_tab_apply (default_widgets e df) ;;
      ret (Some filtered_df)
  end.

(** [category_totals.sort_values('Amount', ascending=False).head(5)] of the
    tab [Statistics]. *)
Definition top_categories (expenses_df : list Expense) : list (string * Z) :=
  firstn 5 (ExpenseManager.sort_values_desc (ExpenseManager.groupby_sum expenses_df)).

(** ** Further vocabulary of the statements *)

(** Identifiers are pairwise distinct and below the next value of the
    sequence. *)
Definition ids_fresh (w : World) : Prop :=
  NoDup (map row_id (table w)) /\
  Forall (fun r => row_id r < next_id w) (table w).

(** A computation keeps the identifiers distinct and below the sequence,
    and never moves the sequence back. *)
Definition keeps_ids {A} (m : Py A) : Prop :=
  forall w, ids_fresh w ->
    ids_fresh (after m w) /\ next_id w <= next_id (after m w).

(** [ORDER BY date DESC] on rows without identifier. *)
Definition expense_date_desc (e1 e2 : Expense) : bool := Date e2 <=? Date e1.

(** The listing with identifiers that the page shows for a table. *)
Definition listing (w : World) : list Row := order_by_date_desc (table w).





(** A healthy backend holding the two rows of the scenario and nothing
    in its log. *)
Definition two_rows : World :=
  mkWorld (table two_inserts) (next_id two_inserts) [] [].

(** ** The scenarios of the specification, run on the embedding *)

Example scenario_get_expenses :
  run ExpenseManager.get_expenses two_inserts =
  Ok [mkExpense 19724 2000 "Transportation" "Bus";
      mkExpense 19723 5000 "Food & Dining" "Lunch"].
Proof. reflexivity. Qed.

Example scenario_total_by_category :
  run ExpenseManager.get_total_by_category two_inserts =
  Ok [("Food & Dining", 5000); ("Transportation", 2000)].
Proof. reflexivity. Qed.

Example scenario_delete_first_row :
  run (ExpenseManager.delete_expense 0) two_inserts = Raised KeyError.
Proof. reflexivity. Qed.

Example scenario_save_data_with_ids :
  run (DataHandler.save_data frame_with_id) two_rows = Ok true /\
  table (after (DataHandler.save_data frame_with_id) two_rows)
  = [mkRow 9 19725 700 "Other" "Stamp"] /\
  next_id (after (DataHandler.save_data frame_with_id) two_rows) = 3.
Proof. repeat split. Qed.

Example scenario_refused_insert_spends_identifier :
  run (DataHandler.add_expense None (Some 700) (Some "Other") (Some "Stamp") ;;
       DataHandler.add_expense (Some 19725) (Some 700) (Some "Other")
         (Some "Stamp") ;;
       ExpenseManager.get_expenses_with_ids) two_rows
  = Ok [mkRow 4 19725 700 "Other" "Stamp";
        mkRow 2 19724 2000 "Transportation" "Bus";
        mkRow 1 19723 5000 "Food & Dining" "Lunch"].
Proof. reflexivity. Qed.

Example scenario_filter_min_amount :
  run (ExpenseManager.filter_expenses None None None (Some 3000) None) two_inserts =
  Ok [mkExpense 19723 5000 "Food & Dining" "Lunch"].
Proof. reflexivity. Qed.

(** ** Sorting *)

Section Isort.

Context {A : Type} (leb : A -> A -> bool).

Lemma insert_sorted_perm (x : A) (l : list A) :
  Permutation (insert_sorted leb x l) (x :: l).
Proof.
  induction l as [|y l IH]; simpl.
  - apply Permutation_refl.
  - destruct (leb x y).
    + apply Permutation_refl.
    + apply perm_trans with (y :: x :: l).
      * apply perm_skip, IH.
      * apply perm_swap.
Qed.

Lemma isort_perm (l : list A) : Permutation (isort leb l) l.
Proof.
  induction l as [|x l IH]; simpl.
  - apply perm_nil.
  - apply perm_trans with (x :: isort leb l).
    + apply insert_sorted_perm.
    + apply perm_skip, IH.
Qed.

Lemma isort_length (l : list A) : List.length (isort leb l) = List.length l.
Proof. apply Permutation_length, isort_perm. Qed.

Lemma isort_in (x : A) (l : list A) : In x (isort leb l) <-> In x l.
Proof.
  split; apply Permutation_in;
    [apply isort_perm | apply Permutation_sym, isort_perm].
Qed.

Hypothesis leb_total : forall a b, leb a b = false -> leb b a = true.

Lemma insert_sorted_hdrel (a x : A) (l : list A) :
  before leb a x -> HdRel (before leb) a l ->
  HdRel (before leb) a (insert_sorted leb x l).
Proof.
  intros Hax Hl. destruct l as [|y l]; simpl.
  - constructor. exact Hax.
  - destruct (leb x y); constructor.
    + exact Hax.
    + inversion Hl; assumption.
Qed.

Lemma insert_sorted_sorted (x : A) (l : list A) :
  Sorted (before leb) l -> Sorted (before leb) (insert_sorted leb x l).
Proof.
  induction l as [|y l IH]; intros Hs; simpl.
  - repeat constructor.
  - destruct (leb x y) eqn:Hxy.
    + constructor; [exact Hs | constructor; exact Hxy].
    + inversion Hs as [|? ? Hs' Hhd]; subst.
      constructor.
      * apply IH, Hs'.
      * apply insert_sorted_hdrel; [apply leb_total, Hxy | exact Hhd].
Qed.

Lemma isort_sorted (l : list A) : Sorted (before leb) (isort leb l).
Proof.
  induction l as [|x l IH]; simpl.
  - constructor.
  - apply insert_sorted_sorted, IH.
Qed.

End Isort.

Lemma StronglySorted_map {A B} (f : A -> B) (R : B -> B -> Prop) (l : list A) :
  StronglySorted (fun a b => R (f a) (f b)) l -> StronglySorted R (map f l).
Proof.
  induction 1 as [|a l Hs IH Hall]; simpl; constructor.
  - exact IH.
  - apply Forall_map. exact Hall.
Qed.

Lemma isort_key_desc_sorted {A} (key : A -> Z) (l : list A) :
  StronglySorted (fun a b => key b <= key a)
    (isort (fun a b => key b <=? key a) l).
Proof.
  apply Sorted_StronglySorted.
  - intros a b c Hab Hbc. lia.
  - assert (H : Sorted (fun a b => (key b <=? key a) = true)
                  (isort (fun a b => key b <=? key a) l)).
    { apply isort_sorted. intros a b Hab.
      apply Z.leb_gt in Hab. apply Z.leb_le. lia. }
    induction H as [|a l' Hs IH Hhd]; constructor.
    + exact IH.
    + destruct Hhd as [|b l'' Hab]; constructor.
      apply Z.leb_le. exact Hab.
Qed.

Lemma order_by_date_desc_sorted (t : list Row) :
  StronglySorted (fun r1 r2 => row_date r2 <= row_date r1) (order_by_date_desc t).
Proof. apply (isort_key_desc_sorted row_date). Qed.

(** ** Runs of the backend *)

Lemma read_sql_healthy (w : World) :
  healthy 2 w = true ->
  read_sql w =
  (Ok (order_by_date_desc (table w)),
   mkWorld (table w) (next_id w) (skipn 2 (faults w)) (calls w)).
Proof.
  destruct w as [t n fs cs]. unfold healthy. simpl. intros H.
  unfold_py. simpl. step_faults; reflexivity.
Qed.

Lemma read_sql_faulty (w : World) :
  faulty 2 w = true ->
  exists e w', read_sql w = (Raised e, w') /\ same_table w w' /\ calls w' = calls w.
Proof.
  destruct w as [t n fs cs]. unfold faulty, same_table. simpl. intros H.
  unfold_py. simpl. step_faults; eauto 10.
Qed.

Lemma read_sql_frame (w : World) :
  exists o w', read_sql w = (o, w') /\ same_table w w' /\ calls w' = calls w /\
    (o = Ok (order_by_date_desc (table w)) \/ exists e, o = Raised e).
Proof.
  destruct w as [t n fs cs]. unfold same_table.
  unfold_py. simpl. step_faults; eauto 10.
Qed.

(** ** Listing *)

Lemma project_shows (l : list Row) : Forall2 shows (map project l) l.
Proof.
  induction l as [|r l IH]; simpl; constructor; [|exact IH].
  unfold shows, project. simpl. auto.
Qed.

(** C4: with the backend answering, [load_data] (and [get_expenses], which
    returns it as it is) yields one record for every row of the table and
    no other: the records stand for the rows of the table arranged by date
    descending, each record carrying the date, amount, category and
    description of its row and no identifier; the table is left as it
    was. *)
Theorem load_data_sorted_projection (w : World) :
  healthy 2 w = true ->
  exists df rows,
    run DataHandler.load_data w = Ok df /\
    run ExpenseManager.get_expenses w = Ok df /\
    Permutation rows (table w) /\
    StronglySorted (fun r1 r2 => row_date r2 <= row_date r1) rows /\
    Forall2 shows df rows /\
    StronglySorted (fun e1 e2 => Date e2 <= Date e1) df /\
    same_table w (after DataHandler.load_data w).
Proof.
  intros H.
  exists (map project (order_by_date_desc (table w))),
    (order_by_date_desc (table w)).
  assert (Hrun : DataHandler.load_data w =
            (Ok (map project (order_by_date_desc (table w))),
             mkWorld (table w) (next_id w) (skipn 2 (faults w))
               (calls w ++ [call_load_data]))).
  { unfold DataHandler.load_data, DataHandler.load_data_try.
    unfold bind at 1, try_except, log_call. unfold bind at 1.
    rewrite read_sql_healthy by exact H. reflexivity. }
  unfold ExpenseManager.get_expenses, run, after. rewrite Hrun. simpl.
  split; [reflexivity|]. split; [reflexivity|].
  split; [apply isort_perm|].
  split; [apply order_by_date_desc_sorted|].
  split; [apply project_shows|].
  split; [|split; reflexivity].
  apply StronglySorted_map. apply order_by_date_desc_sorted.
Qed.

Lemma load_data_sorted_projection_witness :
  exists df rows,
    run DataHandler.load_data two_inserts = Ok df /\
    run ExpenseManager.get_expenses two_inserts = Ok df /\
    Permutation rows (table two_inserts) /\
    StronglySorted (fun r1 r2 => row_date r2 <= row_date r1) rows /\
    Forall2 shows df rows /\
    StronglySorted (fun e1 e2 => Date e2 <= Date e1) df /\
    same_table two_inserts (after DataHandler.load_data two_inserts).
Proof. apply (load_data_sorted_projection two_inserts). reflexivity. Defined.

(** ** Deleting by display position *)

Lemma get_expenses_with_ids_frame (w : World) :
  exists df w',
    ExpenseManager.get_expenses_with_ids w = (Ok df, w') /\
    same_table w w' /\ calls w' = calls w /\
    (df = [] \/ df = order_by_date_desc (table w)).
Proof.
  destruct (read_sql_frame w) as (o & w' & Hr & Hs & Hc & Ho).
  unfold ExpenseManager.get_expenses_with_ids, try_except. rewrite Hr.
  destruct Ho as [-> | [e ->]].
  - exists (order_by_date_desc (table w)), w'. auto.
  - exists [], w'. unfold ret. auto.
Qed.

Lemma len_order_by_date_desc (t : list Row) :
  len (order_by_date_desc t) = len t.
Proof. unfold len, order_by_date_desc. now rewrite isort_length. Qed.

(** C1: on an empty table, or at a position [index >= len(expenses)],
    [delete_expense] returns [False], the table is as before, and the store
    was not called. *)
Theorem delete_expense_out_of_range (w : World) (index : Z) :
  table w = [] \/ len (table w) <= index ->
  run (ExpenseManager.delete_expense index) w = Ok false /\
  same_table w (after (ExpenseManager.delete_expense index) w) /\
  calls (after (ExpenseManager.delete_expense index) w) = calls w.
Proof.
  intros H.
  destruct (get_expenses_with_ids_frame w) as (df & w' & Hg & Hs & Hc & Hdf).
  unfold ExpenseManager.delete_expense, run, after, bind. rewrite Hg.
  assert (Hguard : empty df || (index >=? len df) = true).
  { destruct Hdf as [-> | ->]; [reflexivity|].
    destruct H as [Ht | Hi].
    - rewrite Ht. reflexivity.
    - rewrite len_order_by_date_desc, Z.geb_leb.
      apply orb_true_iff. right. apply Z.leb_le. exact Hi. }
  rewrite Hguard. simpl. auto.
Qed.

Lemma delete_expense_out_of_range_witness :
  run (ExpenseManager.delete_expense 2) two_inserts = Ok false /\
  same_table two_inserts (after (ExpenseManager.delete_expense 2) two_inserts) /\
  calls (after (ExpenseManager.delete_expense 2) two_inserts) = calls two_inserts.
Proof.
  apply (delete_expense_out_of_range two_inserts 2).
  right. vm_compute. discriminate.
Defined.

Lemma healthy_or_faulty (n : nat) (w : World) :
  healthy n w = true \/ faulty n w = true.
Proof.
  unfold healthy, faulty. induction (firstn n (faults w)) as [|b l IH]; simpl.
  - now left.
  - destruct b; simpl; [now right | exact IH].
Qed.

Lemma healthy_not_faulty (n : nat) (w : World) :
  healthy n w = true -> faulty n w = false.
Proof.
  unfold healthy, faulty. induction (firstn n (faults w)) as [|b l IH]; simpl.
  - reflexivity.
  - destruct b; simpl; [discriminate | exact IH].
Qed.

Lemma forallb_firstn_skipn (a b : nat) (l : list bool) :
  forallb negb (firstn (a + b) l) = true ->
  forallb negb (firstn a l) = true /\ forallb negb (firstn b (skipn a l)) = true.
Proof.
  revert l. induction a as [|a IH]; intros l H; simpl in *.
  - auto.
  - destruct l as [|x l]; simpl in *.
    + split; [reflexivity | now destruct b].
    + apply andb_true_iff in H. destruct H as [Hx Hl].
      destruct (IH l Hl) as [H1 H2]. rewrite Hx, H1. auto.
Qed.

Lemma execute_commit_healthy (effect : Py unit) (w : World) :
  healthy 3 w = true ->
  execute_commit effect w =
  effect (mkWorld (table w) (next_id w) (skipn 3 (faults w)) (calls w)).
Proof.
  destruct w as [t n fs cs]. unfold healthy. simpl. intros H.
  unfold execute_commit, bind, fault_point. simpl.
  destruct fs as [|[|] [|[|] [|[|] fs]]]; simpl in *;
    try discriminate; reflexivity.
Qed.

Lemma execute_commit_faulty (effect : Py unit) (w : World) :
  faulty 3 w = true ->
  exists fs',
    execute_commit effect w =
    (Raised BackendError, mkWorld (table w) (next_id w) fs' (calls w)).
Proof.
  destruct w as [t n fs cs]. unfold faulty. simpl. intros H.
  unfold execute_commit, bind, fault_point. simpl.
  destruct fs as [|[|] [|[|] [|[|] fs]]]; simpl in *;
    try discriminate; eauto.
Qed.

Lemma delete_expense_by_id_run (expense_id : Z) (w : World) :
  exists b w',
    DataHandler.delete_expense_by_id expense_id w = (Ok b, w') /\
    calls w' = calls w ++ [call_delete_expense_by_id expense_id] /\
    next_id w' = next_id w /\
    ((b = true /\ healthy 3 w = true /\
      table w' = filter (fun r => negb (row_id r =? expense_id)) (table w)) \/
     (b = false /\ faulty 3 w = true /\ table w' = table w)).
Proof.
  unfold DataHandler.delete_expense_by_id, DataHandler.delete_expense_by_id_try.
  unfold bind at 1, log_call, try_except. unfold bind at 1.
  fold (logged (call_delete_expense_by_id expense_id) w).
  destruct (healthy_or_faulty 3 w) as [H | H].
  - rewrite execute_commit_healthy by exact H.
    eexists _, _. split; [reflexivity|]. simpl. auto 10.
  - destruct (execute_commit_faulty (sql_delete expense_id)
                (logged (call_delete_expense_by_id expense_id) w) H) as [fs' ->].
    eexists _, _. split; [reflexivity|]. simpl. auto 10.
Qed.

Lemma delete_expense_in_range_raises (w : World) (index : Z) :
  healthy 2 w = true ->
  - len (table w) <= index < len (table w) ->
  exists r,
    iloc (order_by_date_desc (table w)) index
      (mkWorld (table w) (next_id w) (skipn 2 (faults w)) (calls w))
    = (Ok r, mkWorld (table w) (next_id w) (skipn 2 (faults w)) (calls w)) /\
    ExpenseManager.delete_expense index w =
    (Raised KeyError,
     mkWorld (table w) (next_id w) (skipn 2 (faults w)) (calls w)).
Proof.
  intros H Hi.
  set (df := order_by_date_desc (table w)).
  assert (Hlen : len df = len (table w)) by apply len_order_by_date_desc.
  assert (Hg : ExpenseManager.get_expenses_with_ids w =
               (Ok df, mkWorld (table w) (next_id w) (skipn 2 (faults w)) (calls w))).
  { unfold ExpenseManager.get_expenses_with_ids, try_except.
    now rewrite read_sql_healthy by exact H. }
  set (pos := if index <? 0 then len df + index else index).
  assert (Hpos : 0 <= pos < len df).
  { unfold pos. destruct (Z.ltb_spec index 0); lia. }
  destruct (nth_error df (Z.to_nat pos)) as [r|] eqn:Hn.
  2:{ apply nth_error_None in Hn. unfold len in *. lia. }
  assert (Hiloc : forall w1, iloc df index w1 = (Ok r, w1)).
  { intros w1. unfold iloc. fold pos.
    assert (Hp : (pos <? 0) = false) by (apply Z.ltb_ge; lia).
    now rewrite Hp, Hn. }
  exists r. split; [apply Hiloc|].
  unfold ExpenseManager.delete_expense. unfold bind at 1. rewrite Hg.
  assert (He : empty df = false).
  { destruct df; [unfold len in *; simpl in *; lia | reflexivity]. }
  assert (Hge : (index >=? len df) = false).
  { rewrite Z.geb_leb. apply Z.leb_gt. lia. }
  rewrite He, Hge. cbn [orb].
  unfold bind at 1. rewrite Hiloc. reflexivity.
Qed.

(** C10, as the code has it: at a negative position [-n <= index <= -1]
    of a listing of [n] rows that was read, [delete_expense] passes the
    guard and takes the row at position [n + index], and then raises
    [KeyError] at the lookup of the label [ID], which the listing carries
    in lower case; the store is not called and the table is as before. *)
Theorem delete_expense_negative_index_raises (w : World) (index : Z) :
  healthy 2 w = true ->
  - len (table w) <= index <= -1 ->
  exists r,
    nth_error (order_by_date_desc (table w))
      (Z.to_nat (len (table w) + index)) = Some r /\
    run (ExpenseManager.delete_expense index) w = Raised KeyError /\
    same_table w (after (ExpenseManager.delete_expense index) w) /\
    calls (after (ExpenseManager.delete_expense index) w) = calls w.
Proof.
  intros H Hi.
  destruct (delete_expense_in_range_raises w index H) as (r & _ & Hrun).
  { pose proof (Zle_0_nat (List.length (table w))). unfold len in *. lia. }
  pose proof (len_order_by_date_desc (table w)) as Hlen.
  destruct (nth_error (order_by_date_desc (table w))
              (Z.to_nat (len (table w) + index))) as [r'|] eqn:Hn.
  2:{ apply nth_error_None in Hn. unfold len in *. lia. }
  exists r'. unfold run, after, same_table. rewrite Hrun. simpl. auto.
Qed.

Lemma delete_expense_negative_index_raises_witness :
  exists r,
    nth_error (order_by_date_desc (table two_inserts))
      (Z.to_nat (len (table two_inserts) + -1)) = Some r /\
    run (ExpenseManager.delete_expense (-1)) two_inserts = Raised KeyError /\
    same_table two_inserts (after (ExpenseManager.delete_expense (-1)) two_inserts) /\
    calls (after (ExpenseManager.delete_expense (-1)) two_inserts)
    = calls two_inserts.
Proof.
  apply (delete_expense_negative_index_raises two_inserts (-1)).
  - reflexivity.
  - unfold len. simpl. lia.
Defined.

(** Below [-n] the position is not caught by the guard and the lookup
    raises: [delete_expense] does not return. *)
Lemma delete_expense_below_range_raises (w : World) (index : Z) :
  healthy 2 w = true ->
  table w <> [] ->
  index < - len (table w) ->
  run (ExpenseManager.delete_expense index) w = Raised IndexError.
Proof.
  intros H Ht Hi.
  set (df := order_by_date_desc (table w)).
  assert (Hlen : len df = len (table w)) by apply len_order_by_date_desc.
  assert (Hg : ExpenseManager.get_expenses_with_ids w =
               (Ok df, mkWorld (table w) (next_id w) (skipn 2 (faults w)) (calls w))).
  { unfold ExpenseManager.get_expenses_with_ids, try_except.
    now rewrite read_sql_healthy by exact H. }
  unfold run, ExpenseManager.delete_expense. unfold bind at 1. rewrite Hg.
  assert (He : empty df = false).
  { destruct df; [|reflexivity].
    destruct (table w); [congruence | unfold len in Hlen; simpl in Hlen; lia]. }
  assert (Hge : (index >=? len df) = false).
  { rewrite Z.geb_leb. apply Z.leb_gt. unfold len in *. lia. }
  rewrite He, Hge. simpl. unfold bind at 1, iloc.
  assert (Hneg : (index <? 0) = true) by (apply Z.ltb_lt; unfold len in *; lia).
  rewrite Hneg.
  assert (Hpos : (len df + index <? 0) = true) by (apply Z.ltb_lt; lia).
  rewrite Hpos. reflexivity.
Qed.

(** ** Adding *)

Lemma store_add_expense_cases (date : option Day) (amount : option Z)
    (category description : option string) (w : World) :
  exists w',
    DataHandler.add_expense date amount category description w =
    (Ok match given_expense date amount category description with
        | Some _ => healthy 3 w
        | None => false
        end, w') /\
    calls w' = calls w ++ [call_add_expense date amount category description] /\
    table w' =
      match given_expense date amount category description with
      | Some e => if healthy 3 w then table w ++ assign_ids (next_id w) [e]
                  else table w
      | None => table w
      end /\
    next_id w' =
      match given_expense date amount category description with
      | Some _ => if healthy 3 w then next_id w + 1 else next_id w
      | None => if healthy 2 w then next_id w + 1 else next_id w
      end.
Proof.
  destruct w as [t n fs cs].
  unfold DataHandler.add_expense, DataHandler.add_expense_try,
    execute_commit_checked, bind_parameters, given_expense, healthy.
  unfold_py. simpl.
  destruct date as [d|], amount as [a|], category as [c|], description as [s|];
    destruct fs as [|[|] [|[|] [|[|] fs]]]; simpl;
    eexists; repeat split; reflexivity.
Qed.

Lemma add_expense_store_run (date : option Day) (amount : option Z)
    (category description : option string) (w : World) :
  exists b w',
    DataHandler.add_expense date amount category description w = (Ok b, w') /\
    calls w' = calls w ++ [call_add_expense date amount category description].
Proof.
  destruct (store_add_expense_cases date amount category description w)
    as (w' & Hrun & Hcalls & _).
  eexists _, w'. split; [exact Hrun | exact Hcalls].
Qed.


Lemma add_expense_guard (date : option Day) (amount : option Z)
    (category description : option string) :
  negb (truthy_date date) || negb (truthy_num amount)
  || negb (truthy_str category) || negb (truthy_str description) = true <->
  missing_or_empty date amount category description = true \/ amount = Some 0.
Proof.
  unfold missing_or_empty, truthy_date, truthy_num, truthy_str.
  destruct date as [d|], amount as [a|], category as [c|], description as [s|];
    try destruct (Z.eqb_spec a 0) as [-> | Ha];
    try destruct (c =? "")%string; try destruct (s =? "")%string; simpl;
    (split;
     [ intros H; first [discriminate | now left | now right]
     | intros [H | H]; first [reflexivity | discriminate | congruence] ]).
Qed.

Lemma world_calls_grow (w : World) (c : StoreCall) :
  calls w <> calls w ++ [c].
Proof.
  intros H. apply (f_equal (@List.length _)) in H.
  rewrite length_app in H. simpl in H. lia.
Qed.


(** C7, as stated, fails: with the amount 0 and no argument missing or
    empty the call is turned down and the store is not called. *)
Lemma add_expense_zero_amount_rejected :
  missing_or_empty (Some 19723) (Some 0) (Some "Food & Dining") (Some "Lunch")
    = false /\
  ExpenseManager.add_expense (Some 19723) (Some 0) (Some "Food & Dining")
    (Some "Lunch") fresh = (Ok false, fresh).
Proof. split; reflexivity. Qed.

(** C7, amended: [add_expense] returns [False] with the world untouched
    exactly when an argument is missing or empty or the amount is zero;
    otherwise the amount is a number and the call is the store's
    [add_expense] on the same arguments. *)
Theorem add_expense_rejects_iff (date : option Day) (amount : option Z)
    (category description : option string) (w : World) :
  (ExpenseManager.add_expense date amount category description w = (Ok false, w)
   <-> missing_or_empty date amount category description = true \/ amount = Some 0)
  /\
  (missing_or_empty date amount category description = false ->
   amount <> Some 0 ->
   exists a,
     amount = Some a /\
     ExpenseManager.add_expense date amount category description w =
     DataHandler.add_expense date (Some a) category description w).
Proof.
  pose proof (add_expense_guard date amount category description) as Hg.
  unfold ExpenseManager.add_expense.
  destruct (negb (truthy_date date) || negb (truthy_num amount)
            || negb (truthy_str category) || negb (truthy_str description))
    eqn:Hc.
  - split.
    + split; [intros _; now apply Hg | reflexivity].
    + intros Hm Ha. destruct (proj1 Hg eq_refl) as [H | H]; congruence.
  - assert (Hno : ~ (missing_or_empty date amount category description = true
                     \/ amount = Some 0)).
    { intros H. apply Hg in H. discriminate. }
    destruct amount as [a|].
    2:{ exfalso. apply Hno. left. unfold missing_or_empty.
        destruct date; reflexivity. }
    unfold float, bind at 1, ret.
    split.
    + split; [|intros H; contradiction].
      intros H.
      destruct (add_expense_store_run date (Some a) category description w)
        as (b & w' & Hr & Hcalls).
      rewrite Hr in H. inversion H; subst.
      exfalso. exact (world_calls_grow _ _ Hcalls).
    + intros _ _. exists a. split; reflexivity.
Qed.

Lemma add_expense_rejects_iff_witness :
  exists a,
    Some 5000 = Some a /\
    ExpenseManager.add_expense (Some 19723) (Some 5000) (Some "Food & Dining")
      (Some "Lunch") fresh =
    DataHandler.add_expense (Some 19723) (Some a) (Some "Food & Dining")
      (Some "Lunch") fresh.
Proof.
  apply (add_expense_rejects_iff (Some 19723) (Some 5000)
           (Some "Food & Dining") (Some "Lunch") fresh).
  - reflexivity.
  - discriminate.
Defined.



(** ** Filtering *)

Lemma filter_filter {A} (p q : A -> bool) (l : list A) :
  filter q (filter p l) = filter (fun x => p x && q x) l.
Proof.
  induction l as [|x l IH]; simpl; [reflexivity|].
  destruct (p x); simpl; [destruct (q x)|]; now rewrite IH.
Qed.

Lemma filter_true {A} (l : list A) : filter (fun _ => true) l = l.
Proof. induction l as [|x l IH]; simpl; [|rewrite IH]; reflexivity. Qed.

Lemma apply_if_filter {B} (bound : option B) (mask : B -> Expense -> bool)
    (df : list Expense) :
  ExpenseManager.apply_if bound mask df =
  filter (fun e => match bound with Some b => mask b e | None => true end) df.
Proof. destruct bound; simpl; [reflexivity | now rewrite filter_true]. Qed.

Lemma mem_existsb (s : string) (cs : list string) :
  mem s cs = existsb (fun c => (c =? s)%string) cs.
Proof.
  unfold mem. induction cs as [|c cs IH]; simpl; [reflexivity|].
  now rewrite IH, String.eqb_sym.
Qed.

Lemma load_data_returns (w : World) :
  exists df w',
    DataHandler.load_data w = (Ok df, w') /\ same_table w w' /\
    calls w' = calls w ++ [call_load_data] /\
    (df = [] \/ df = map project (order_by_date_desc (table w))).
Proof.
  unfold DataHandler.load_data, DataHandler.load_data_try.
  unfold bind at 1, log_call, try_except. unfold bind at 1.
  fold (logged call_load_data w).
  destruct (read_sql_frame (logged call_load_data w))
    as (o & w' & Hr & Hs & Hc & Ho).
  rewrite Hr. destruct Ho as [-> | [e ->]].
  - eexists _, w'. split; [reflexivity|]. auto.
  - eexists _, w'. split; [reflexivity|]. auto.
Qed.

Lemma filter_expenses_after_load (start_date end_date : option Day)
    (categories : option (list string)) (min_amount max_amount : option Z)
    (w w' : World) (df : list Expense) :
  DataHandler.load_data w = (Ok df, w') ->
  ExpenseManager.filter_expenses start_date end_date categories
    min_amount max_amount w =
  (Ok (filter (satisfies start_date end_date categories min_amount max_amount) df),
   w').
Proof.
  intros Hl.
  unfold ExpenseManager.filter_expenses, ExpenseManager.get_expenses.
  unfold bind. rewrite Hl.
  destruct df as [|e df]; [reflexivity|].
  cbv beta zeta. unfold empty, ret. f_equal. f_equal.
  rewrite !apply_if_filter, !filter_filter.
  apply filter_ext. intros x.
  unfold satisfies, ExpenseManager.categories_given.
  destruct start_date, end_date, categories as [[|c cs]|], min_amount, max_amount;
    cbv beta iota; rewrite ?mem_existsb, ?Z.geb_leb, ?andb_assoc; reflexivity.
Qed.

(** C5: [filter_expenses] returns the rows of [get_expenses()], in their
    order, that satisfy every supplied predicate. *)
Theorem filter_expenses_conjunction (start_date end_date : option Day)
    (categories : option (list string)) (min_amount max_amount : option Z)
    (w : World) :
  exists df w',
    ExpenseManager.get_expenses w = (Ok df, w') /\
    ExpenseManager.filter_expenses start_date end_date categories
      min_amount max_amount w =
    (Ok (filter (satisfies start_date end_date categories min_amount max_amount) df),
     w').
Proof.
  unfold ExpenseManager.get_expenses.
  destruct (load_data_returns w) as (df & w' & Hl & _).
  exists df, w'. split; [exact Hl|].
  apply filter_expenses_after_load. exact Hl.
Qed.

(** C8: with no bound given, [filter_expenses] is [get_expenses()], the
    same rows in the same order; and on an empty table it returns the
    empty frame whatever the bounds. *)
Theorem filter_expenses_no_bounds :
  (forall w,
     ExpenseManager.filter_expenses None None None None None w =
     ExpenseManager.get_expenses w) /\
  (forall start_date end_date categories min_amount max_amount n fs cs,
     run (ExpenseManager.filter_expenses start_date end_date categories
            min_amount max_amount) (mkWorld [] n fs cs) = Ok [] /\
     run ExpenseManager.get_expenses (mkWorld [] n fs cs) = Ok []).
Proof.
  split.
  - intros w. destruct (load_data_returns w) as (df & w' & Hl & _).
    rewrite (filter_expenses_after_load _ _ _ _ _ _ _ _ Hl).
    unfold ExpenseManager.get_expenses. rewrite Hl.
    unfold satisfies. simpl. now rewrite filter_true.
  - intros start_date end_date categories min_amount max_amount n fs cs.
    destruct (load_data_returns (mkWorld [] n fs cs))
      as (df & w' & Hl & _ & _ & Hdf).
    unfold run, ExpenseManager.get_expenses.
    rewrite (filter_expenses_after_load _ _ _ _ _ _ _ _ Hl), Hl. simpl.
    destruct Hdf as [-> | ->]; split; reflexivity.
Qed.

(** ** Replacing the table *)

Lemma project_assign_ids (n : Z) (l : list Expense) :
  map project (assign_ids n l) = l.
Proof.
  revert n. induction l as [|e l IH]; intros n; simpl; [reflexivity|].
  rewrite IH. destruct e; reflexivity.
Qed.

Lemma project_with_ids (given : list Z) (l : list Expense) :
  List.length given = List.length l ->
  map project (with_ids given l) = l.
Proof.
  revert l. induction given as [|i given IH]; intros [|e l] H;
    simpl in *; try discriminate; [reflexivity|].
  unfold with_ids in IH. rewrite IH by lia. destruct e; reflexivity.
Qed.

Lemma check_columns_run (expected cols : list string) (w : World) :
  DataHandler.check_columns expected cols w =
  if forallb (fun col => mem col cols) expected
  then (Ok tt, w) else (Raised ValueError, w).
Proof.
  induction expected as [|col rest IH]; simpl; [reflexivity|].
  destruct (mem col cols); simpl; [exact IH | reflexivity].
Qed.

(** C2, as stated, fails: the bulk insert fails after the [TRUNCATE] was
    committed, [save_data] returns [False], and the two rows are lost. *)
Lemma save_data_failure_empties_table :
  run (DataHandler.save_data (frame_of [mkExpense 19725 700 "Other" "Stamp"]))
    insert_fails = Ok false /\
  table insert_fails <> [] /\
  table (after (DataHandler.save_data
                  (frame_of [mkExpense 19725 700 "Other" "Stamp"])) insert_fails)
  = [].
Proof. repeat split. discriminate. Qed.

Lemma save_data_run (df : DataFrame) (w : World) :
  exists w',
    DataHandler.save_data df w =
      (Ok (truncate_commits df w && insert_commits df w), w') /\
    table w' =
      (if truncate_commits df w
       then if insert_commits df w
            then frame_rows (next_id w) df
            else []
       else table w) /\
    next_id w' =
      (if truncate_commits df w && insert_commits df w && negb (carries_ids df)
       then next_id w + Z.of_nat (List.length (records df))
       else next_id w).
Proof.
  destruct w as [t n fs cs].
  unfold DataHandler.save_data, DataHandler.save_data_try.
  unfold bind at 1, log_call, try_except. unfold bind at 1.
  rewrite check_columns_run. fold (has_expected_columns df).
  unfold truncate_commits, insert_commits, insert_accepted, frame_rows,
    carries_ids, healthy.
  destruct (has_expected_columns df);
    [rewrite !andb_true_l | rewrite !andb_false_l].
  2:{ eexists. repeat split; reflexivity. }
  unfold to_sql, to_sql_statement, execute_commit_checked, execute_commit,
    sql_truncate, sql_insert, sql_insert_with_ids.
  cbn [columns records ids table next_id faults calls].
  set (known := forallb (fun c => mem c table_columns) (map lower (columns df))).
  set (once := distinct String.eqb (map lower (columns df))).
  set (given := mem "id" (map lower (columns df))).
  unfold_py.
  destruct fs as [|[|] [|[|] [|[|] [|[|] [|[|] [|[|] fs]]]]]];
    cbn [firstn skipn forallb negb andb table next_id faults calls app map];
    destruct (empty (records df)), known, once, given;
    cbn [negb andb orb table next_id faults calls app map];
    try destruct (distinct Z.eqb (map row_id (with_ids (ids df) (records df))));
    eexists; repeat split; reflexivity.
Qed.

(** C2, amended: [save_data] clears the table and inserts the rows of the
    frame in two transactions, one after the other.  When the first is
    not committed it returns [False] and the table is as before.  When
    the first is committed and it returns [False], the table is left
    empty.  When it returns [True], the table holds the records of the
    frame and nothing else, under the identifiers of the frame when it
    carries them and under new ones otherwise; and it does return [True]
    when both transactions are committed. *)
Theorem save_data_two_transactions (df : DataFrame) (w : World) :
  exists b w',
    DataHandler.save_data df w = (Ok b, w') /\
    (truncate_commits df w = false -> b = false /\ table w' = table w) /\
    (truncate_commits df w = true -> b = false -> table w' = []) /\
    (b = true -> table w' = frame_rows (next_id w) df) /\
    (b = true ->
     carries_ids df = false \/
     List.length (ids df) = List.length (records df) ->
     map project (table w') = records df) /\
    (truncate_commits df w = true -> insert_commits df w = true -> b = true).
Proof.
  destruct (save_data_run df w) as (w' & Hrun & Ht & _).
  exists (truncate_commits df w && insert_commits df w), w'.
  split; [exact Hrun|].
  destruct (truncate_commits df w), (insert_commits df w); simpl in *;
    repeat split; intros; try discriminate; try assumption; try reflexivity.
  rewrite Ht. unfold frame_rows.
  destruct (carries_ids df).
  - apply project_with_ids. destruct H0 as [H0 | H0]; [discriminate | exact H0].
  - apply project_assign_ids.
Qed.

Lemma save_data_two_transactions_witness :
  exists b w',
    DataHandler.save_data (frame_of [mkExpense 19725 700 "Other" "Stamp"])
      insert_fails = (Ok b, w') /\
    (b = false -> table w' = []) /\
    exists b' w'',
      DataHandler.save_data frame_with_id two_rows = (Ok b', w'') /\
      b' = true.
Proof.
  destruct (save_data_two_transactions
              (frame_of [mkExpense 19725 700 "Other" "Stamp"]) insert_fails)
    as (b & w' & Hrun & _ & Hempty & _).
  exists b, w'. split; [exact Hrun|]. split; [apply Hempty; reflexivity|].
  destruct (save_data_two_transactions frame_with_id two_rows)
    as (b' & w'' & Hrun' & _ & _ & _ & _ & Htrue).
  exists b', w''. split; [exact Hrun' | apply Htrue; reflexivity].
Defined.

(** ** Failures stay inside the store *)

Lemma logged_try_run {A} (c : StoreCall) (body : Py A) (sentinel : A) (w : World) :
  (log_call c ;; try_except body (fun _ => ret sentinel)) w =
  match body (logged c w) with
  | (Ok a, w') => (Ok a, w')
  | (Raised _, w') => (Ok sentinel, w')
  end.
Proof. reflexivity. Qed.

Lemma logged_try_never_raises {A} (c : StoreCall) (body : Py A) (sentinel : A) :
  never_raises (log_call c ;; try_except body (fun _ => ret sentinel)).
Proof.
  intros w. unfold run. rewrite logged_try_run.
  destruct (body (logged c w)) as [[a | e] w']; simpl; eauto.
Qed.

Lemma logged_try_sentinel {A} (c : StoreCall) (body : Py A) (sentinel : A) :
  sentinel_on_raise (log_call c ;; try_except body (fun _ => ret sentinel))
    body (logged c) sentinel.
Proof.
  intros w e. unfold run. rewrite logged_try_run.
  destruct (body (logged c w)) as [[a | e'] w']; simpl; [discriminate | reflexivity].
Qed.

Lemma forallb_firstn_app (a b : nat) (l : list bool) :
  forallb negb (firstn a l) = true ->
  forallb negb (firstn b (skipn a l)) = true ->
  forallb negb (firstn (a + b) l) = true.
Proof.
  revert l. induction a as [|a IH]; intros l Ha Hb; simpl in *.
  - exact Hb.
  - destruct l as [|x l]; simpl in *; [reflexivity|].
    apply andb_true_iff in Ha. destruct Ha as [Hx Hl].
    rewrite Hx. simpl. apply IH; assumption.
Qed.

Lemma faulty_not_healthy (n : nat) (w : World) :
  faulty n w = true -> healthy n w = false.
Proof.
  intros H. destruct (healthy n w) eqn:E; [|reflexivity].
  apply healthy_not_faulty in E. congruence.
Qed.

(** C3: [load_data], [add_expense], [delete_expense_by_id], [save_data] and
    [get_expenses_with_ids] return in every world and on every input; when
    their [try] block raises, and so whenever the backend fails, the two
    queries return the empty frame and the three updates return [False]. *)
Theorem store_never_raises :
  (never_raises DataHandler.load_data /\
   sentinel_on_raise DataHandler.load_data DataHandler.load_data_try
     (logged call_load_data) [] /\
   sentinel_on_fault DataHandler.load_data 2 []) /\
  (forall date amount category description,
     never_raises (DataHandler.add_expense date amount category description) /\
     sentinel_on_raise (DataHandler.add_expense date amount category description)
       (DataHandler.add_expense_try date amount category description)
       (logged (call_add_expense date amount category description)) false /\
     sentinel_on_fault
       (DataHandler.add_expense date amount category description) 3 false) /\
  (forall expense_id,
     never_raises (DataHandler.delete_expense_by_id expense_id) /\
     sentinel_on_raise (DataHandler.delete_expense_by_id expense_id)
       (DataHandler.delete_expense_by_id_try expense_id)
       (logged (call_delete_expense_by_id expense_id)) false /\
     sentinel_on_fault (DataHandler.delete_expense_by_id expense_id) 3 false) /\
  (forall df,
     never_raises (DataHandler.save_data df) /\
     sentinel_on_raise (DataHandler.save_data df) (DataHandler.save_data_try df)
       (logged (call_save_data df)) false /\
     sentinel_on_fault (DataHandler.save_data df) 6 false) /\
  (never_raises ExpenseManager.get_expenses_with_ids /\
   sentinel_on_raise ExpenseManager.get_expenses_with_ids read_sql (fun w => w) [] /\
   sentinel_on_fault ExpenseManager.get_expenses_with_ids 2 []).
Proof.
  split; [|split; [|split; [|split]]].
  - split; [apply logged_try_never_raises | split; [apply logged_try_sentinel|]].
    intros w H. unfold run, DataHandler.load_data. rewrite logged_try_run.
    unfold DataHandler.load_data_try, bind.
    destruct (read_sql_faulty (logged call_load_data w) H) as (e & w' & -> & _).
    reflexivity.
  - intros date amount category description.
    split; [apply logged_try_never_raises | split; [apply logged_try_sentinel|]].
    intros w H. unfold run.
    destruct (store_add_expense_cases date amount category description w)
      as (w' & -> & _).
    rewrite (faulty_not_healthy 3 w H). simpl.
    destruct (given_expense date amount category description); reflexivity.
  - intros expense_id.
    split; [apply logged_try_never_raises | split; [apply logged_try_sentinel|]].
    intros w H. unfold run, DataHandler.delete_expense_by_id. rewrite logged_try_run.
    unfold DataHandler.delete_expense_by_id_try, bind.
    destruct (execute_commit_faulty (sql_delete expense_id)
                (logged (call_delete_expense_by_id expense_id) w) H) as [fs' ->].
    reflexivity.
  - intros df.
    split; [apply logged_try_never_raises | split; [apply logged_try_sentinel|]].
    intros w H. unfold run.
    destruct (save_data_run df w) as (w' & -> & _). simpl.
    f_equal. unfold truncate_commits, insert_commits.
    destruct (healthy 3 w) eqn:H3; [|now rewrite andb_false_r].
    destruct (forallb negb (firstn 3 (skipn 3 (faults w)))) eqn:H3';
      [|now rewrite !andb_false_r].
    apply faulty_not_healthy in H.
    pose proof (forallb_firstn_app 3 3 (faults w) H3 H3') as H6.
    unfold healthy in H. simpl Nat.add in H6. congruence.
  - split; [|split].
    + intros w. destruct (get_expenses_with_ids_frame w) as (df & w' & Hg & _).
      exists df. unfold run. now rewrite Hg.
    + intros w e. unfold run, ExpenseManager.get_expenses_with_ids, try_except.
      destruct (read_sql w) as [[a | e'] w']; simpl; [discriminate | reflexivity].
    + intros w H. unfold run, ExpenseManager.get_expenses_with_ids, try_except.
      destruct (read_sql_faulty w H) as (e & w' & -> & _). reflexivity.
Qed.

Lemma store_never_raises_witness :
  run DataHandler.load_data backend_down = Ok [] /\
  run (DataHandler.add_expense (Some 19725) (Some 700) (Some "Other") (Some "Stamp"))
    backend_down = Ok false /\
  run (DataHandler.delete_expense_by_id 1) backend_down = Ok false /\
  run (DataHandler.save_data (frame_of [])) backend_down = Ok false /\
  run ExpenseManager.get_expenses_with_ids backend_down = Ok [].
Proof.
  destruct store_never_raises as ((_ & _ & L) & A & D & S & (_ & _ & G)).
  split; [apply L; reflexivity|].
  split; [apply (proj2 (proj2 (A _ _ _ _))); reflexivity|].
  split; [apply (proj2 (proj2 (D _))); reflexivity|].
  split; [apply (proj2 (proj2 (S _))); reflexivity|].
  apply G; reflexivity.
Defined.


(** ** More on the store *)

(** X1: the store's [add_expense] is all or nothing for the table.  When
    it returns [True] the four values were given, the backend answered,
    and the table is the old one followed by one row carrying the next
    identifier; when it returns [False] the table is as before, and the
    sequence is as before or one further: a row refused for a missing
    value has spent the identifier it drew. *)
Theorem store_add_expense_all_or_nothing (date : option Day) (amount : option Z)
    (category description : option string) (w : World) :
  exists b w',
    DataHandler.add_expense date amount category description w = (Ok b, w') /\
    (b = true ->
     exists d a c s,
       date = Some d /\ amount = Some a /\ category = Some c /\
       description = Some s /\ healthy 3 w = true /\
       table w' = table w ++ [mkRow (next_id w) d a c s] /\
       next_id w' = next_id w + 1) /\
    (b = false ->
     table w' = table w /\
     (next_id w' = next_id w \/ next_id w' = next_id w + 1)) /\
    (given_expense date amount category description = None ->
     healthy 2 w = true ->
     b = false /\ next_id w' = next_id w + 1).
Proof.
  destruct (store_add_expense_cases date amount category description w)
    as (w' & Hrun & _ & Ht & Hn).
  eexists _, w'. split; [exact Hrun|].
  unfold given_expense in *.
  destruct date as [d|], amount as [a|], category as [c|], description as [s|];
    try (split; [discriminate|];
         split; [intros _; split; [exact Ht|];
                 destruct (healthy 2 w); auto
                | intros _ H2; rewrite H2 in Hn; auto]).
  destruct (healthy 3 w) eqn:H3.
  - split; [|split; [discriminate | discriminate]].
    intros _. exists d, a, c, s. simpl in Ht. auto 10.
  - split; [discriminate|]. split; [auto | discriminate].
Qed.

Lemma store_add_expense_all_or_nothing_witness :
  exists w',
    DataHandler.add_expense (Some 19725) (Some 700) (Some "Other") (Some "Stamp")
      two_rows = (Ok true, w') /\
    table w' = table two_rows ++ [mkRow 3 19725 700 "Other" "Stamp"].
Proof.
  destruct (store_add_expense_all_or_nothing (Some 19725) (Some 700)
              (Some "Other") (Some "Stamp") two_rows)
    as (b & w' & Hrun & Htrue & _).
  assert (E : b = true) by (vm_compute in Hrun; congruence).
  subst b. exists w'. split; [exact Hrun|].
  destruct (Htrue eq_refl) as (d & a & c & s & Hd & Ha & Hc & Hs & _ & Ht & _).
  inversion Hd; inversion Ha; inversion Hc; inversion Hs; subst. exact Ht.
Defined.

(** X2: deleting an identifier that no row carries is not an error: with
    the backend answering, [delete_expense_by_id] returns [True] and the
    table is as before. *)
Theorem delete_missing_id_succeeds (expense_id : Z) (w : World) :
  healthy 3 w = true ->
  (forall r, In r (table w) -> row_id r <> expense_id) ->
  run (DataHandler.delete_expense_by_id expense_id) w = Ok true /\
  same_table w (after (DataHandler.delete_expense_by_id expense_id) w).
Proof.
  intros H Hno.
  destruct (delete_expense_by_id_run expense_id w)
    as (b & w' & Hrun & _ & Hn & Hcases).
  unfold run, after, same_table. rewrite Hrun. simpl.
  destruct Hcases as [(-> & _ & Ht) | (_ & Hf & _)].
  - repeat split; [|exact Hn]. rewrite Ht.
    clear Ht. induction (table w) as [|r t IH]; simpl; [reflexivity|].
    destruct (Z.eqb_spec (row_id r) expense_id) as [E | _]; simpl.
    + exfalso. apply (Hno r); [now left | exact E].
    + rewrite IH; [reflexivity|]. intros r' Hr'. apply Hno. now right.
  - apply healthy_not_faulty in H. congruence.
Qed.

Lemma delete_missing_id_succeeds_witness :
  run (DataHandler.delete_expense_by_id 7) two_rows = Ok true /\
  same_table two_rows (after (DataHandler.delete_expense_by_id 7) two_rows).
Proof.
  apply (delete_missing_id_succeeds 7 two_rows).
  - reflexivity.
  - simpl. intros r [<- | [<- | []]]; simpl; lia.
Defined.

(** ** Identifiers *)

Lemma ids_fresh_same (w w' : World) :
  same_table w w' -> ids_fresh w -> ids_fresh w'.
Proof. unfold same_table, ids_fresh. intros [-> ->]. auto. Qed.

Lemma ids_distinct_filter (keep : Row -> bool) (t : list Row) :
  NoDup (map row_id t) -> NoDup (map row_id (filter keep t)).
Proof.
  intros Hnd. induction t as [|r t IH]; simpl in *; [constructor|].
  apply NoDup_cons_iff in Hnd. destruct Hnd as [Hr Ht].
  destruct (keep r); simpl; [|exact (IH Ht)].
  apply NoDup_cons; [|exact (IH Ht)].
  rewrite in_map_iff. intros (r' & Hid & Hin).
  apply filter_In in Hin. apply Hr. rewrite <- Hid. apply in_map. tauto.
Qed.

Lemma ids_fresh_filter (p : Row -> bool) (fs : list bool)
    (cs : list StoreCall) (w : World) :
  ids_fresh w ->
  ids_fresh (mkWorld (filter p (table w)) (next_id w) fs cs).
Proof.
  unfold ids_fresh. simpl. intros [Hnd Hlt]. split.
  - apply ids_distinct_filter, Hnd.
  - rewrite Forall_forall in *. intros r Hr. apply filter_In in Hr.
    apply Hlt. tauto.
Qed.

Lemma assign_ids_range (l : list Expense) (n : Z) :
  Forall (fun r => n <= row_id r < n + Z.of_nat (List.length l)) (assign_ids n l).
Proof.
  revert n. induction l as [|e l IH]; intros n; simpl; constructor.
  - simpl. lia.
  - eapply Forall_impl; [|apply IH]. simpl. intros r Hr. lia.
Qed.

Lemma assign_ids_nodup (l : list Expense) (n : Z) :
  NoDup (map row_id (assign_ids n l)).
Proof.
  revert n. induction l as [|e l IH]; intros n; simpl; constructor.
  - intros Hin. apply in_map_iff in Hin. destruct Hin as (r & Hr & Hin).
    pose proof (assign_ids_range l (n + 1)) as Hrange.
    rewrite Forall_forall in Hrange. specialize (Hrange r Hin). lia.
  - apply IH.
Qed.

Lemma ids_fresh_append (w : World) (d : Day) (a : Z) (c s : string)
    (fs : list bool) (cs : list StoreCall) :
  ids_fresh w ->
  ids_fresh (mkWorld (table w ++ [mkRow (next_id w) d a c s]) (next_id w + 1) fs cs).
Proof.
  unfold ids_fresh. simpl. intros [Hnd Hlt]. split.
  - rewrite map_app. simpl.
    apply NoDup_app; [exact Hnd | repeat constructor; intros [] |].
    intros x Hx [<- | []]. apply in_map_iff in Hx.
    destruct Hx as (r & Hr & Hin). rewrite Forall_forall in Hlt.
    specialize (Hlt r Hin). lia.
  - apply Forall_app. split.
    + eapply Forall_impl; [|exact Hlt]. simpl. intros r Hr. lia.
    + repeat constructor. simpl. lia.
Qed.

Lemma delete_expense_never_writes (index : Z) (w : World) :
  exists o w',
    ExpenseManager.delete_expense index w = (o, w') /\
    same_table w w' /\ calls w' = calls w /\ o <> Ok true.
Proof.
  destruct (get_expenses_with_ids_frame w) as (df & w1 & Hg & Hsame & Hc & _).
  unfold ExpenseManager.delete_expense. unfold bind at 1. rewrite Hg.
  destruct (empty df || (index >=? len df)).
  - eexists _, _. split; [reflexivity|].
    split; [exact Hsame | split; [exact Hc | discriminate]].
  - unfold bind, iloc.
    destruct ((if index <? 0 then len df + index else index) <? 0).
    + eexists _, _. split; [reflexivity|].
    split; [exact Hsame | split; [exact Hc | discriminate]].
    + destruct (nth_error df _) as [r|].
      * eexists _, _. split; [reflexivity|].
    split; [exact Hsame | split; [exact Hc | discriminate]].
      * eexists _, _. split; [reflexivity|].
    split; [exact Hsame | split; [exact Hc | discriminate]].
Qed.

Lemma store_add_expense_keeps_ids (date : option Day) (amount : option Z)
    (category description : option string) :
  keeps_ids (DataHandler.add_expense date amount category description).
Proof.
  intros w Hw. unfold after.
  destruct (store_add_expense_cases date amount category description w)
    as (w' & -> & _ & Ht & Hn). simpl.
  destruct (given_expense date amount category description) as [e|].
  - destruct (healthy 3 w).
    + pose proof (ids_fresh_append w (Date e) (Amount e) (Category e)
                    (Description e) [] [] Hw) as H.
      unfold ids_fresh in *. simpl in *. rewrite Ht, Hn. split; [exact H | lia].
    + split; [apply (ids_fresh_same w); [split; assumption | exact Hw] | lia].
  - split; [|destruct (healthy 2 w); lia].
    destruct Hw as [Hnd Hlt]. unfold ids_fresh. rewrite Ht. split; [exact Hnd|].
    eapply Forall_impl; [|exact Hlt]. simpl. intros r Hr.
    destruct (healthy 2 w); lia.
Qed.

(** X3: identifiers stay ahead of the table.  If the identifiers in the
    table are pairwise distinct and below the next value of the sequence,
    they are so after every operation of the store and of the ledger,
    whatever the backend does, [save_data] being given a frame without a
    column of identifiers; the sequence never moves back, and clearing the
    table in [save_data] does not restart it.  A frame that carries
    identifiers can break this: [save_data] stores them as they are. *)
Theorem identifiers_stay_fresh :
  keeps_ids DataHandler.load_data /\
  (forall date amount category description,
     keeps_ids (DataHandler.add_expense date amount category description)) /\
  (forall expense_id, keeps_ids (DataHandler.delete_expense_by_id expense_id)) /\
  (forall df, carries_ids df = false -> keeps_ids (DataHandler.save_data df)) /\
  (forall date amount category description,
     keeps_ids (ExpenseManager.add_expense date amount category description)) /\
  (forall index, keeps_ids (ExpenseManager.delete_expense index)) /\
  ~ keeps_ids (DataHandler.save_data frame_with_id).
Proof.
  split; [|split; [|split; [|split; [|split; [|split]]]]].
  - intros w Hw. unfold after.
    destruct (load_data_returns w) as (df & w' & -> & Hsame & _). simpl.
    split; [apply (ids_fresh_same w); assumption|].
    destruct Hsame as [_ ->]. lia.
  - apply store_add_expense_keeps_ids.
  - intros expense_id w Hw. unfold after.
    destruct (delete_expense_by_id_run expense_id w)
      as (b & w' & -> & _ & Hn & Hcases). simpl.
    split; [|lia].
    destruct Hcases as [(_ & _ & Ht) | (_ & _ & Ht)].
    + pose proof (ids_fresh_filter (fun r => negb (row_id r =? expense_id))
                    [] [] w Hw) as H.
      unfold ids_fresh in *. simpl in H. now rewrite Ht, Hn.
    + apply (ids_fresh_same w); [split; assumption | exact Hw].
  - intros df Hno w Hw. unfold after.
    destruct (save_data_run df w) as (w' & -> & Ht & Hn). simpl.
    unfold frame_rows in Ht. rewrite Hno in Ht, Hn. simpl negb in Hn.
    rewrite andb_true_r in Hn.
    destruct (truncate_commits df w); simpl in *.
    + destruct (insert_commits df w); simpl in *.
      * split; [|lia]. unfold ids_fresh. rewrite Ht, Hn. split.
        -- apply assign_ids_nodup.
        -- eapply Forall_impl; [|apply assign_ids_range]. simpl. intros r Hr. lia.
      * split; [|lia]. unfold ids_fresh. rewrite Ht. split; constructor.
    + split; [|lia]. apply (ids_fresh_same w); [split; assumption | exact Hw].
  - intros date amount category description w Hw.
    unfold after, ExpenseManager.add_expense.
    destruct (negb (truthy_date date) || negb (truthy_num amount)
              || negb (truthy_str category) || negb (truthy_str description)).
    + simpl. split; [exact Hw | lia].
    + unfold bind, float. destruct amount as [a|]; simpl.
      * apply (store_add_expense_keeps_ids date (Some a) category description w Hw).
      * split; [exact Hw | lia].
  - intros index w Hw. unfold after.
    destruct (delete_expense_never_writes index w)
      as (o & w' & -> & Hsame & _). simpl.
    split; [apply (ids_fresh_same w); assumption|].
    destruct Hsame as [_ ->]. lia.
  - intros H. destruct (H two_rows) as [[_ Hlt] _].
    + unfold ids_fresh. simpl. split.
      * repeat constructor; simpl; intuition discriminate.
      * repeat constructor; simpl; lia.
    + vm_compute in Hlt. inversion Hlt as [|? ? Hr _]; subst.
      vm_compute in Hr. discriminate.
Qed.

Lemma identifiers_stay_fresh_witness :
  ids_fresh (after (DataHandler.save_data
                      (frame_of [mkExpense 19725 700 "Other" "Stamp"])) two_rows) /\
  next_id two_rows <=
  next_id (after (DataHandler.save_data
                    (frame_of [mkExpense 19725 700 "Other" "Stamp"])) two_rows).
Proof.
  destruct identifiers_stay_fresh as (_ & _ & _ & S & _).
  apply S; [reflexivity|]. unfold ids_fresh. simpl. split.
  - repeat constructor; simpl; intuition lia.
  - repeat constructor; simpl; lia.
Defined.

(** ** More on sorting *)

Section IsortOrder.

Context {A : Type} (leb : A -> A -> bool).

Lemma insert_sorted_front (x : A) (l : list A) :
  HdRel (before leb) x l -> insert_sorted leb x l = x :: l.
Proof.
  intros H. destruct H as [|y l Hxy]; simpl; [reflexivity|].
  unfold before in Hxy. now rewrite Hxy.
Qed.

Lemma isort_sorted_id (l : list A) :
  Sorted (before leb) l -> isort leb l = l.
Proof.
  induction 1 as [|x l Hs IH Hhd]; simpl; [reflexivity|].
  rewrite IH. apply insert_sorted_front, Hhd.
Qed.

End IsortOrder.

Lemma map_insert_sorted {A B} (f : A -> B) (leb' : A -> A -> bool)
    (leb : B -> B -> bool) (x : A) (l : list A) :
  (forall a b, leb' a b = leb (f a) (f b)) ->
  map f (insert_sorted leb' x l) = insert_sorted leb (f x) (map f l).
Proof.
  intros H. induction l as [|y l IH]; simpl; [reflexivity|].
  rewrite H. destruct (leb (f x) (f y)); simpl; [reflexivity | now rewrite IH].
Qed.

Lemma map_isort {A B} (f : A -> B) (leb' : A -> A -> bool)
    (leb : B -> B -> bool) (l : list A) :
  (forall a b, leb' a b = leb (f a) (f b)) ->
  map f (isort leb' l) = isort leb (map f l).
Proof.
  intros H. induction l as [|x l IH]; simpl; [reflexivity|].
  now rewrite (map_insert_sorted f leb' leb), IH.
Qed.

Lemma project_order_by_date_desc (t : list Row) :
  map project (order_by_date_desc t) = isort expense_date_desc (map project t).
Proof. apply map_isort. reflexivity. Qed.

(** ** More on the ledger *)

Lemma get_expenses_with_ids_healthy (w : World) :
  healthy 2 w = true ->
  ExpenseManager.get_expenses_with_ids w =
  (Ok (listing w),
   mkWorld (table w) (next_id w) (skipn 2 (faults w)) (calls w)).
Proof.
  intros H. unfold ExpenseManager.get_expenses_with_ids, try_except.
  now rewrite read_sql_healthy by exact H.
Qed.

Lemma load_data_healthy (w : World) :
  healthy 2 w = true ->
  DataHandler.load_data w =
  (Ok (map project (listing w)),
   mkWorld (table w) (next_id w) (skipn 2 (faults w))
     (calls w ++ [call_load_data])).
Proof.
  intros H. unfold DataHandler.load_data, DataHandler.load_data_try.
  unfold bind at 1, try_except, log_call. unfold bind at 1.
  rewrite read_sql_healthy by exact H. reflexivity.
Qed.

(** X4: deleting by display position never deletes.  For every position
    and whatever the backend does, [delete_expense] leaves the table and
    the sequence as they were, does not call the store and does not
    return [True].  For a position that is shown, [0 <= index < n] of a
    listing that was read, it raises [KeyError] at the lookup of the
    label [ID], and the listing read afterwards still has every row. *)
Theorem delete_expense_never_deletes (index : Z) (w : World) :
  same_table w (after (ExpenseManager.delete_expense index) w) /\
  calls (after (ExpenseManager.delete_expense index) w) = calls w /\
  run (ExpenseManager.delete_expense index) w <> Ok true /\
  (healthy 4 w = true ->
   0 <= index < len (table w) ->
   run (ExpenseManager.delete_expense index) w = Raised KeyError /\
   run ExpenseManager.get_expenses_with_ids
     (after (ExpenseManager.delete_expense index) w)
   = run ExpenseManager.get_expenses_with_ids w).
Proof.
  destruct (delete_expense_never_writes index w)
    as (o & w' & Hrun & Hsame & Hc & Ho).
  unfold run at 1 2, after at 1 2. rewrite Hrun. cbn [fst snd].
  split; [exact Hsame|]. split; [exact Hc|]. split; [exact Ho|].
  intros H Hi.
  destruct (forallb_firstn_skipn 2 2 (faults w) H) as [H2 H2'].
  destruct (delete_expense_in_range_raises w index H2) as (r & _ & Hraise).
  { lia. }
  rewrite Hraise in Hrun. inversion Hrun; subst o w'.
  split; [reflexivity|]. unfold run, after. rewrite Hraise. cbn [snd].
  rewrite get_expenses_with_ids_healthy by exact H2'.
  rewrite get_expenses_with_ids_healthy by exact H2. reflexivity.
Qed.

Lemma delete_expense_never_deletes_witness :
  run (ExpenseManager.delete_expense 1) two_rows = Raised KeyError /\
  run ExpenseManager.get_expenses_with_ids
    (after (ExpenseManager.delete_expense 1) two_rows)
  = run ExpenseManager.get_expenses_with_ids two_rows.
Proof.
  apply (delete_expense_never_deletes 1 two_rows).
  - reflexivity.
  - unfold len. simpl. lia.
Defined.




(** X6: the two listings show the same rows at the same positions: with
    the backend answering, [get_expenses()] is [get_expenses_with_ids()]
    without the column of identifiers, row by row. *)
Theorem listings_agree (w : World) :
  healthy 2 w = true ->
  exists l,
    run ExpenseManager.get_expenses_with_ids w = Ok l /\
    run ExpenseManager.get_expenses w = Ok (map project l) /\
    forall i r,
      nth_error l i = Some r ->
      exists df,
        run ExpenseManager.get_expenses w = Ok df /\
        nth_error df i = Some (project r).
Proof.
  intros H. exists (listing w).
  unfold run, ExpenseManager.get_expenses.
  rewrite get_expenses_with_ids_healthy by exact H.
  rewrite load_data_healthy by exact H. simpl.
  split; [reflexivity|]. split; [reflexivity|].
  intros i r Hn. exists (map project (listing w)).
  split; [reflexivity|]. now rewrite nth_error_map, Hn.
Qed.

Lemma listings_agree_witness :
  exists l,
    run ExpenseManager.get_expenses_with_ids two_rows = Ok l /\
    run ExpenseManager.get_expenses two_rows = Ok (map project l) /\
    forall i r,
      nth_error l i = Some r ->
      exists df,
        run ExpenseManager.get_expenses two_rows = Ok df /\
        nth_error df i = Some (project r).
Proof. apply (listings_agree two_rows). reflexivity. Defined.

(** X7: reading never writes.  Whatever the backend does, [get_expenses],
    [get_expenses_with_ids], [filter_expenses] and [get_total_by_category]
    return, and leave the table and the sequence as they were. *)
Theorem reading_never_writes (w : World) :
  (exists df, run ExpenseManager.get_expenses w = Ok df) /\
  same_table w (after ExpenseManager.get_expenses w) /\
  (exists l, run ExpenseManager.get_expenses_with_ids w = Ok l) /\
  same_table w (after ExpenseManager.get_expenses_with_ids w) /\
  (forall start_date end_date categories min_amount max_amount,
     (exists df,
        run (ExpenseManager.filter_expenses start_date end_date categories
               min_amount max_amount) w = Ok df) /\
     same_table w
       (after (ExpenseManager.filter_expenses start_date end_date categories
                 min_amount max_amount) w)) /\
  (exists totals, run ExpenseManager.get_total_by_category w = Ok totals) /\
  same_table w (after ExpenseManager.get_total_by_category w).
Proof.
  destruct (load_data_returns w) as (df & w' & Hl & Hsame & _).
  destruct (get_expenses_with_ids_frame w) as (l & w'' & Hg & Hsame' & _).
  unfold run, after, ExpenseManager.get_expenses. rewrite Hl, Hg. simpl.
  split; [eauto|]. split; [exact Hsame|]. split; [eauto|].
  split; [exact Hsame'|]. split.
  - intros start_date end_date categories min_amount max_amount.
    rewrite (filter_expenses_after_load _ _ _ _ _ _ _ _ Hl). simpl.
    split; [eauto | exact Hsame].
  - unfold ExpenseManager.get_total_by_category, ExpenseManager.get_expenses, bind.
    rewrite Hl. destruct (empty df); simpl; split; eauto.
Qed.

(** ** Round trips through the store *)

Lemma save_data_healthy (l : list Expense) (w : World) :
  healthy 6 w = true ->
  DataHandler.save_data (frame_of l) w =
  (Ok true,
   mkWorld (assign_ids (next_id w) l) (next_id w + Z.of_nat (List.length l))
     (skipn 3 (skipn 3 (faults w)))
     (calls w ++ [call_save_data (frame_of l)])).
Proof.
  destruct w as [t n fs cs]. unfold healthy. cbn [faults]. intros H.
  unfold DataHandler.save_data, DataHandler.save_data_try.
  unfold bind at 1, log_call, try_except. unfold bind at 1.
  rewrite check_columns_run.
  change (forallb (fun col => mem col (columns (frame_of l))) expected_columns)
    with true. cbv iota.
  unfold to_sql, to_sql_statement, execute_commit_checked, execute_commit,
    sql_truncate, sql_insert.
  change (forallb (fun c => mem c table_columns)
            (columns (mkFrame (map lower (columns (frame_of l)))
                        (records (frame_of l)) (ids (frame_of l)))))
    with true.
  change (distinct String.eqb
            (columns (mkFrame (map lower (columns (frame_of l)))
                        (records (frame_of l)) (ids (frame_of l)))))
    with true.
  change (mem "id"
            (columns (mkFrame (map lower (columns (frame_of l)))
                        (records (frame_of l)) (ids (frame_of l)))))
    with false.
  cbn [negb records frame_of].
  unfold_py.
  destruct (empty l);
    destruct fs as [|[|] [|[|] [|[|] [|[|] [|[|] [|[|] fs]]]]]];
    cbn [firstn forallb negb andb] in H; try discriminate;
    reflexivity.
Qed.

Lemma expense_date_desc_total (a b : Expense) :
  expense_date_desc a b = false -> expense_date_desc b a = true.
Proof.
  unfold expense_date_desc. intros H. apply Z.leb_gt in H. apply Z.leb_le. lia.
Qed.

Lemma load_after_save (l : list Expense) (n n' : Z) (fs : list bool)
    (cs : list StoreCall) :
  forallb negb (firstn 2 fs) = true ->
  run DataHandler.load_data (mkWorld (assign_ids n l) n' fs cs) =
  Ok (isort expense_date_desc l).
Proof.
  intros H. unfold run. rewrite load_data_healthy by exact H.
  simpl. unfold listing. simpl.
  now rewrite project_order_by_date_desc, project_assign_ids.
Qed.

(** X9: what was saved is what is loaded.  With the backend answering,
    [save_data] of a frame with the four columns returns [True] and
    [load_data] afterwards returns the rows of the frame ordered by date
    descending and nothing else; a frame that is already in that order
    comes back as it was. *)
Theorem save_then_load (l : list Expense) (w : World) :
  healthy 8 w = true ->
  run (DataHandler.save_data (frame_of l)) w = Ok true /\
  run (DataHandler.save_data (frame_of l) ;; DataHandler.load_data) w
  = Ok (isort expense_date_desc l) /\
  Permutation (isort expense_date_desc l) l /\
  (Sorted (before expense_date_desc) l ->
   run (DataHandler.save_data (frame_of l) ;; DataHandler.load_data) w = Ok l).
Proof.
  intros H.
  destruct (forallb_firstn_skipn 6 2 (faults w) H) as [H6 H2].
  assert (Hrun : run (DataHandler.save_data (frame_of l) ;; DataHandler.load_data) w
                 = Ok (isort expense_date_desc l)).
  { unfold run at 1, bind. rewrite save_data_healthy by exact H6.
    apply load_after_save. rewrite skipn_skipn. exact H2. }
  split.
  - unfold run. now rewrite save_data_healthy by exact H6.
  - split; [exact Hrun|]. split; [apply isort_perm|].
    intros Hs. rewrite Hrun. f_equal. apply isort_sorted_id, Hs.
Qed.

Lemma save_then_load_witness :
  run (DataHandler.save_data
         (frame_of [mkExpense 19724 2000 "Transportation" "Bus";
                    mkExpense 19723 5000 "Food & Dining" "Lunch"]) ;;
       DataHandler.load_data) fresh
  = Ok [mkExpense 19724 2000 "Transportation" "Bus";
        mkExpense 19723 5000 "Food & Dining" "Lunch"].
Proof.
  apply (save_then_load [mkExpense 19724 2000 "Transportation" "Bus";
                         mkExpense 19723 5000 "Food & Dining" "Lunch"] fresh).
  - reflexivity.
  - repeat constructor.
Defined.

(** X10: [save_data(load_data())] keeps the records.  With the backend
    answering, it returns [True]; the table then holds the records it
    held, in the order of the listing and under new identifiers, and the
    listing loaded afterwards is the listing loaded before. *)
Theorem load_then_save_keeps_records (w : World) :
  healthy 10 w = true ->
  exists df,
    run DataHandler.load_data w = Ok df /\
    run (df <- DataHandler.load_data ;; DataHandler.save_data (frame_of df)) w
    = Ok true /\
    map project
      (table (after (df <- DataHandler.load_data ;;
                     DataHandler.save_data (frame_of df)) w)) = df /\
    Permutation df (map project (table w)) /\
    run (df <- DataHandler.load_data ;; DataHandler.save_data (frame_of df) ;;
         DataHandler.load_data) w = Ok df.
Proof.
  intros H. exists (map project (listing w)).
  destruct (forallb_firstn_skipn 2 8 (faults w) H) as [H2 H8].
  destruct (forallb_firstn_skipn 6 2 (skipn 2 (faults w)) H8) as [H6 H2'].
  set (df := map project (listing w)).
  set (w1 := mkWorld (table w) (next_id w) (skipn 2 (faults w))
               (calls w ++ [call_load_data])).
  set (w2 := mkWorld (assign_ids (next_id w1) df)
               (next_id w1 + Z.of_nat (List.length df))
               (skipn 3 (skipn 3 (faults w1)))
               (calls w1 ++ [call_save_data (frame_of df)])).
  assert (E1 : DataHandler.load_data w = (Ok df, w1))
    by (apply load_data_healthy; exact H2).
  assert (E2 : DataHandler.save_data (frame_of df) w1 = (Ok true, w2))
    by (apply save_data_healthy; exact H6).
  assert (E3 : run DataHandler.load_data w2 = Ok df).
  { unfold w2. rewrite load_after_save.
    - f_equal. unfold df, listing. rewrite project_order_by_date_desc.
      apply isort_sorted_id. apply isort_sorted. exact expense_date_desc_total.
    - cbn [faults w1]. rewrite skipn_skipn. exact H2'. }
  unfold run, after, bind in *. rewrite E1, E2. cbn [fst snd].
  split; [reflexivity|]. split; [reflexivity|].
  split; [apply project_assign_ids|].
  split; [apply Permutation_map, isort_perm | exact E3].
Qed.

Lemma load_then_save_keeps_records_witness :
  exists df,
    run DataHandler.load_data two_rows = Ok df /\
    run (df <- DataHandler.load_data ;; DataHandler.save_data (frame_of df))
      two_rows = Ok true /\
    map project
      (table (after (df <- DataHandler.load_data ;;
                     DataHandler.save_data (frame_of df)) two_rows)) = df /\
    Permutation df (map project (table two_rows)) /\
    run (df <- DataHandler.load_data ;; DataHandler.save_data (frame_of df) ;;
         DataHandler.load_data) two_rows = Ok df.
Proof. apply (load_then_save_keeps_records two_rows). reflexivity. Defined.

(** X11: the empty frame of a failed read is taken for an empty table.
    When the read of [load_data] fails and the backend answers afterwards,
    [save_data(load_data())] returns [True] and leaves the table empty. *)
Theorem failed_load_then_save_empties_table (w : World) :
  faulty 2 w = true ->
  healthy 6 (after DataHandler.load_data w) = true ->
  run DataHandler.load_data w = Ok [] /\
  run (df <- DataHandler.load_data ;; DataHandler.save_data (frame_of df)) w
  = Ok true /\
  table (after (df <- DataHandler.load_data ;;
                DataHandler.save_data (frame_of df)) w) = [].
Proof.
  intros Hf Hh.
  assert (E1 : DataHandler.load_data w = (Ok [], after DataHandler.load_data w)).
  { unfold after, DataHandler.load_data. rewrite logged_try_run.
    unfold DataHandler.load_data_try, bind.
    destruct (read_sql_faulty (logged call_load_data w) Hf) as (e & w' & -> & _).
    reflexivity. }
  unfold run, bind. rewrite E1. simpl fst.
  split; [reflexivity|].
  unfold after at 2. unfold bind. rewrite E1.
  rewrite save_data_healthy by exact Hh. split; reflexivity.
Qed.

Lemma failed_load_then_save_empties_table_witness :
  table backend_down <> [] /\
  run (df <- DataHandler.load_data ;; DataHandler.save_data (frame_of df))
    backend_down = Ok true /\
  table (after (df <- DataHandler.load_data ;;
                DataHandler.save_data (frame_of df)) backend_down) = [].
Proof.
  split; [discriminate|].
  apply (failed_load_then_save_empties_table backend_down); reflexivity.
Defined.

(** ** More on filtering *)

Lemma StronglySorted_filter {A} (R : A -> A -> Prop) (p : A -> bool) (l : list A) :
  StronglySorted R l -> StronglySorted R (filter p l).
Proof.
  induction 1 as [|x l Hs IH Hall]; simpl; [constructor|].
  destruct (p x); [|exact IH].
  constructor; [exact IH|].
  rewrite Forall_forall in *. intros y Hy. apply filter_In in Hy.
  apply Hall. tauto.
Qed.

Lemma filter_none {A} (p : A -> bool) (l : list A) :
  (forall x, p x = false) -> filter p l = [].
Proof.
  intros H. induction l as [|x l IH]; simpl; [reflexivity|]. now rewrite H.
Qed.

(** X12: the filtered table is the listing thinned out: with the backend
    answering, the rows [filter_expenses] returns descend by date, each of
    them is a row of the table that meets every bound given, and every
    row of the table that meets them is returned. *)
Theorem filter_expenses_sorted_selection (start_date end_date : option Day)
    (categories : option (list string)) (min_amount max_amount : option Z)
    (w : World) :
  healthy 2 w = true ->
  exists df,
    run (ExpenseManager.filter_expenses start_date end_date categories
           min_amount max_amount) w = Ok df /\
    StronglySorted (fun e1 e2 => Date e2 <= Date e1) df /\
    forall e,
      In e df <->
      In e (map project (table w)) /\
      satisfies start_date end_date categories min_amount max_amount e = true.
Proof.
  intros H.
  pose proof (load_data_healthy w H) as Hl.
  exists (filter (satisfies start_date end_date categories min_amount max_amount)
            (map project (listing w))).
  unfold run. rewrite (filter_expenses_after_load _ _ _ _ _ _ _ _ Hl). simpl.
  split; [reflexivity|]. split.
  - apply StronglySorted_filter, StronglySorted_map, order_by_date_desc_sorted.
  - intros e. rewrite filter_In.
    assert (Hin : In e (map project (listing w)) <-> In e (map project (table w))).
    { split; apply Permutation_in; apply Permutation_map;
        [apply isort_perm | apply Permutation_sym, isort_perm]. }
    tauto.
Qed.

Lemma filter_expenses_sorted_selection_witness :
  exists df,
    run (ExpenseManager.filter_expenses None None (Some ["Transportation"])
           (Some 1000) None) two_rows = Ok df /\
    StronglySorted (fun e1 e2 => Date e2 <= Date e1) df /\
    forall e,
      In e df <->
      In e (map project (table two_rows)) /\
      satisfies None None (Some ["Transportation"]) (Some 1000) None e = true.
Proof.
  apply (filter_expenses_sorted_selection None None (Some ["Transportation"])
           (Some 1000) None two_rows).
  reflexivity.
Defined.

(** X13: bounds that exclude each other give the empty table: with a
    start date after the end date, or a least amount above the greatest,
    [filter_expenses] returns no row, whatever the table, the categories
    and the backend. *)
Theorem filter_expenses_crossed_bounds (w : World)
    (categories : option (list string)) :
  (forall start_date end_date min_amount max_amount,
     end_date < start_date ->
     run (ExpenseManager.filter_expenses (Some start_date) (Some end_date)
            categories min_amount max_amount) w = Ok []) /\
  (forall start_date end_date min_amount max_amount,
     max_amount < min_amount ->
     run (ExpenseManager.filter_expenses start_date end_date categories
            (Some min_amount) (Some max_amount)) w = Ok []).
Proof.
  destruct (load_data_returns w) as (df & w' & Hl & _).
  split; intros start_date end_date min_amount max_amount Hlt;
    unfold run; rewrite (filter_expenses_after_load _ _ _ _ _ _ _ _ Hl); simpl;
    f_equal; apply filter_none; intros e; unfold satisfies.
  - destruct (Z.leb_spec start_date (Date e)), (Z.leb_spec (Date e) end_date);
      simpl; try reflexivity. lia.
  - destruct (Z.leb_spec min_amount (Amount e)), (Z.leb_spec (Amount e) max_amount);
      simpl; rewrite ?andb_false_r; try reflexivity. lia.
Qed.

Lemma filter_expenses_crossed_bounds_witness :
  run (ExpenseManager.filter_expenses None None None (Some 3000) (Some 2500))
    two_rows = Ok [].
Proof.
  apply (proj2 (filter_expenses_crossed_bounds two_rows None) None None 3000 2500).
  lia.
Defined.

(** ** The presentation script *)


Section AddFormFacts.

Variable strip : string -> string.


End AddFormFacts.


Lemma column_min_le (x : Z) (l : list Z) :
  column_min x l <= x /\ Forall (fun y => column_min x l <= y) l.
Proof.
  induction l as [|y l [IHx IHl]]; simpl.
  - split; [lia | constructor].
  - split; [lia|]. constructor; [lia|].
    eapply Forall_impl; [|exact IHl]. simpl. intros z Hz. lia.
Qed.

Lemma column_max_ge (x : Z) (l : list Z) :
  x <= column_max x l /\ Forall (fun y => y <= column_max x l) l.
Proof.
  induction l as [|y l [IHx IHl]]; simpl.
  - split; [lia | constructor].
  - split; [lia|]. constructor; [lia|].
    eapply Forall_impl; [|exact IHl]. simpl. intros z Hz. lia.
Qed.

Lemma filter_all {A} (p : A -> bool) (l : list A) :
  Forall (fun x => p x = true) l -> filter p l = l.
Proof.
  induction 1 as [|x l Hx Hl IH]; simpl; [reflexivity|]. now rewrite Hx, IH.
Qed.

Lemma default_widgets_keep_all (e : Expense) (df : list Expense) :
  let '(start_date, end_date, selected_categories, amount_range) :=
    default_widgets e df in
  filter (satisfies (Some start_date) (Some end_date)
            (if empty selected_categories then None else Some selected_categories)
            (Some (fst amount_range)) (Some (snd amount_range)))
    (e :: df) = e :: df.
Proof.
  unfold default_widgets. cbv zeta. cbn [empty fst snd].
  destruct (column_min_le (Date e) (map Date df)) as [Hd1 Hd2].
  destruct (column_max_ge (Date e) (map Date df)) as [Hd3 Hd4].
  destruct (column_min_le (Amount e) (map Amount df)) as [Ha1 Ha2].
  destruct (column_max_ge (Amount e) (map Amount df)) as [Ha3 Ha4].
  set (mx := if column_min (Amount e) (map Amount df) =?
                column_max (Amount e) (map Amount df)
             then column_max (Amount e) (map Amount df) + one_unit
             else column_max (Amount e) (map Amount df)).
  assert (Hmx : column_max (Amount e) (map Amount df) <= mx).
  { unfold mx, one_unit. destruct (_ =? _); lia. }
  rewrite Forall_map in Hd2, Hd4, Ha2, Ha4. rewrite Forall_forall in *.
  apply filter_all. rewrite Forall_forall. intros x Hx. unfold satisfies.
  assert (Hb : column_min (Date e) (map Date df) <= Date x <=
               column_max (Date e) (map Date df) /\
               column_min (Amount e) (map Amount df) <= Amount x <=
               column_max (Amount e) (map Amount df)).
  { destruct Hx as [<- | Hx]; [lia|].
    specialize (Hd2 x Hx). specialize (Hd4 x Hx).
    specialize (Ha2 x Hx). specialize (Ha4 x Hx). lia. }
  repeat (apply andb_true_iff; split); try reflexivity; apply Z.leb_le; lia.
Qed.

(** X15: the tab [Filters] starts by showing everything.  With the backend
    answering and its widgets untouched, whose ranges are taken from the
    dates and amounts that occur, the filtered table it shows is the full
    table of [get_expenses()]; on an empty table it shows the note. *)
Theorem filter_tab_default_shows_all (w : World) :
  healthy 4 w = true ->
  exists df,
    run ExpenseManager.get_expenses w = Ok df /\
    run filter_tab_default w = Ok (if empty df then None else Some df).
Proof.
  intros H.
  destruct (forallb_firstn_skipn 2 2 (faults w) H) as [H2 H2'].
  exists (map project (listing w)).
  pose proof (load_data_healthy w H2) as Hl.
  unfold run, filter_tab_default, ExpenseManager.get_expenses, bind.
  rewrite Hl. cbn [fst]. split; [reflexivity|].
  destruct (map project (listing w)) as [|e df] eqn:Edf; [reflexivity|].
  set (w1 := mkWorld (table w) (next_id w) (skipn 2 (faults w))
               (calls w ++ [call_load_data])) in *.
  assert (Hl1 : DataHandler.load_data w1 =
                (Ok (e :: df),
                 mkWorld (table w1) (next_id w1) (skipn 2 (faults w1))
                   (calls w1 ++ [call_load_data]))).
  { rewrite (load_data_healthy w1) by exact H2'.
    unfold listing, w1. cbn [table]. fold (listing w). now rewrite Edf. }
  pose proof (default_widgets_keep_all e df) as Hall.
  unfold filter_tab_apply.
  destruct (default_widgets e df) as [[[start_date end_date] selected] range].
  rewrite (filter_expenses_after_load _ _ _ _ _ _ _ _ Hl1).
  rewrite Hall. reflexivity.
Qed.

Lemma filter_tab_default_shows_all_witness :
  exists df,
    run ExpenseManager.get_expenses two_rows = Ok df /\
    run filter_tab_default two_rows = Ok (if empty df then None else Some df).
Proof. apply (filter_tab_default_shows_all two_rows). reflexivity. Defined.

(** X16: the chart of the top categories shows at most five categories,
    each once and each the category of some expense; when the expenses
    have at most five categories, it shows all of them. *)
Theorem top_categories_shown (expenses_df : list Expense) :
  (List.length (top_categories expenses_df) <= 5)%nat /\
  NoDup (map fst (top_categories expenses_df)) /\
  (forall c, In c (map fst (top_categories expenses_df)) ->
     In c (map Category expenses_df)) /\
  ((List.length (nodup string_dec (map Category expenses_df)) <= 5)%nat ->
   forall c, In c (map Category expenses_df) ->
     In c (map fst (top_categories expenses_df))).
Proof.
  unfold top_categories.
  set (sorted := ExpenseManager.sort_values_desc
                   (ExpenseManager.groupby_sum expenses_df)).
  set (keys := isort String.leb (nodup string_dec (map Category expenses_df))).
  assert (Hperm : Permutation sorted (ExpenseManager.groupby_sum expenses_df))
    by apply isort_perm.
  assert (Hfst : map fst (ExpenseManager.groupby_sum expenses_df) = keys).
  { unfold ExpenseManager.groupby_sum. rewrite map_map. simpl. apply map_id. }
  assert (Hkeys : forall c, In c keys <-> In c (map Category expenses_df)).
  { intros c. unfold keys. rewrite isort_in. apply nodup_In. }
  assert (Hpk : Permutation (map fst sorted) keys).
  { rewrite <- Hfst. apply Permutation_map, Hperm. }
  assert (Hnd : NoDup (map fst sorted)).
  { eapply Permutation_NoDup; [apply Permutation_sym, Hpk|].
    unfold keys. eapply Permutation_NoDup; [apply Permutation_sym, isort_perm|].
    apply NoDup_nodup. }
  assert (Hsplit : sorted = firstn 5 sorted ++ skipn 5 sorted)
    by (symmetry; apply firstn_skipn).
  split; [apply firstn_le_length|]. split; [|split].
  - rewrite Hsplit, map_app in Hnd. apply NoDup_app_remove_r in Hnd. exact Hnd.
  - intros c Hin. apply Hkeys. apply (Permutation_in _ Hpk).
    rewrite Hsplit, map_app. apply in_or_app. now left.
  - intros Hfew c Hin.
    assert (Hlen : (List.length sorted <= 5)%nat).
    { rewrite <- (length_map fst), (Permutation_length Hpk).
      unfold keys. now rewrite isort_length. }
    rewrite firstn_all2 by exact Hlen.
    apply (Permutation_in _ (Permutation_sym Hpk)). apply Hkeys, Hin.
Qed.

Lemma top_categories_shown_witness :
  In "Transportation"
    (map fst (top_categories
                [mkExpense 19724 2000 "Transportation" "Bus";
                 mkExpense 19723 5000 "Food & Dining" "Lunch"])).
Proof.
  apply (top_categories_shown
           [mkExpense 19724 2000 "Transportation" "Bus";
            mkExpense 19723 5000 "Food & Dining" "Lunch"]).
  - vm_compute. repeat constructor.
  - simpl. auto.
Defined.

Lemma delete_expense_guarded (index : Z) (w : World) :
  table w = [] \/ len (table w) <= index ->
  exists w', ExpenseManager.delete_expense index w = (Ok false, w').
Proof.
  intros H.
  destruct (get_expenses_with_ids_frame w) as (df & w' & Hg & _ & _ & Hdf).
  unfold ExpenseManager.delete_expense, bind. rewrite Hg.
  assert (Hguard : empty df || (index >=? len df) = true).
  { destruct Hdf as [-> | ->]; [reflexivity|].
    destruct H as [Ht | Hi].
    - rewrite Ht. reflexivity.
    - rewrite len_order_by_date_desc, Z.geb_leb.
      apply orb_true_iff. right. apply Z.leb_le. exact Hi. }
  rewrite Hguard. eexists. reflexivity.
Qed.

(** X17: the delete button never reports success.  For every position and
    whatever the backend does, the table and the sequence are as before
    and the success message is not shown.  On an empty table, or for a
    position [index >= n], the button reports failure; for a position that
    is shown, [0 <= index < n] of a listing that was read, the script ends
    in an uncaught [KeyError] and shows neither message. *)
Theorem delete_button_never_succeeds (index : Z) (w : World) :
  same_table w (after (delete_button index) w) /\
  run (delete_button index) w <> Ok (st_success "Expense deleted successfully!") /\
  (table w = [] \/ len (table w) <= index ->
   run (delete_button index) w = Ok (st_error "Failed to delete expense.")) /\
  (healthy 2 w = true ->
   0 <= index < len (table w) ->
   run (delete_button index) w = Raised KeyError).
Proof.
  unfold run, after, delete_button, bind.
  destruct (delete_expense_never_writes index w)
    as (o & w' & Hrun & Hsame & _ & Ho).
  split; [|split; [|split]].
  - rewrite Hrun. destruct o as [[|] | e]; [congruence | exact Hsame | exact Hsame].
  - rewrite Hrun. destruct o as [[|] | e]; [congruence | discriminate | discriminate].
  - intros H. destruct (delete_expense_guarded index w H) as (w1 & ->). reflexivity.
  - intros H Hi.
    destruct (delete_expense_in_range_raises w index H) as (r & _ & ->); [lia|].
    reflexivity.
Qed.

Lemma delete_button_never_succeeds_witness :
  run (delete_button 2) two_rows = Ok (st_error "Failed to delete expense.") /\
  run (delete_button 0) two_rows = Raised KeyError.
Proof.
  split.
  - apply (delete_button_never_succeeds 2 two_rows). right. unfold len. simpl. lia.
  - apply (delete_button_never_succeeds 0 two_rows).
    + reflexivity.
    + unfold len. simpl. lia.
Defined.

(** X18: a position below [-n] escapes the ledger.  On a listing of
    [n >= 1] rows that was read, [delete_expense(index)] with
    [index < -n] raises [IndexError] instead of returning [False]; the
    table is as before and the store was not called. *)
Theorem delete_expense_below_range_escapes (w : World) (index : Z) :
  healthy 2 w = true ->
  table w <> [] ->
  index < - len (table w) ->
  run (ExpenseManager.delete_expense index) w = Raised IndexError /\
  same_table w (after (ExpenseManager.delete_expense index) w) /\
  calls (after (ExpenseManager.delete_expense index) w) = calls w.
Proof.
  intros H Ht Hi.
  pose proof (len_order_by_date_desc (table w)) as Hlen. fold (listing w) in Hlen.
  assert (E : ExpenseManager.delete_expense index w =
              (Raised IndexError,
               mkWorld (table w) (next_id w) (skipn 2 (faults w)) (calls w))).
  { unfold ExpenseManager.delete_expense. unfold bind at 1.
    rewrite get_expenses_with_ids_healthy by exact H.
    assert (He : empty (listing w) = false).
    { destruct (listing w); [|reflexivity].
      destruct (table w); [congruence | unfold len in Hlen; simpl in Hlen; lia]. }
    assert (Hge : (index >=? len (listing w)) = false).
    { rewrite Z.geb_leb. apply Z.leb_gt. unfold len in *. lia. }
    rewrite He, Hge. simpl. unfold bind at 1, iloc.
    assert (Hneg : (index <? 0) = true) by (apply Z.ltb_lt; unfold len in *; lia).
    rewrite Hneg.
    assert (Hpos : (len (listing w) + index <? 0) = true) by (apply Z.ltb_lt; lia).
    rewrite Hpos. reflexivity. }
  unfold run, after, same_table. rewrite E. simpl. auto.
Qed.

Lemma delete_expense_below_range_escapes_witness :
  run (ExpenseManager.delete_expense (-3)) two_rows = Raised IndexError /\
  same_table two_rows (after (ExpenseManager.delete_expense (-3)) two_rows) /\
  calls (after (ExpenseManager.delete_expense (-3)) two_rows) = calls two_rows.
Proof.
  apply (delete_expense_below_range_escapes two_rows (-3)).
  - reflexivity.
  - discriminate.
  - unfold len. simpl. lia.
Defined.

(** X19: filtering can be repeated: with the backend answering, a second
    call of [filter_expenses] with the same bounds returns what the first
    one returned. *)
Theorem filter_expenses_repeatable (start_date end_date : option Day)
    (categories : option (list string)) (min_amount max_amount : option Z)
    (w : World) :
  healthy 4 w = true ->
  run (ExpenseManager.filter_expenses start_date end_date categories
         min_amount max_amount ;;
       ExpenseManager.filter_expenses start_date end_date categories
         min_amount max_amount) w =
  run (ExpenseManager.filter_expenses start_date end_date categories
         min_amount max_amount) w.
Proof.
  intros H.
  destruct (forallb_firstn_skipn 2 2 (faults w) H) as [H2 H2'].
  pose proof (load_data_healthy w H2) as Hl.
  set (w1 := mkWorld (table w) (next_id w) (skipn 2 (faults w))
               (calls w ++ [call_load_data])) in *.
  pose proof (load_data_healthy w1 H2') as Hl1.
  unfold run, bind.
  rewrite (filter_expenses_after_load _ _ _ _ _ _ _ _ Hl).
  rewrite (filter_expenses_after_load _ _ _ _ _ _ _ _ Hl1).
  reflexivity.
Qed.

Lemma filter_expenses_repeatable_witness :
  run (ExpenseManager.filter_expenses None None None (Some 3000) None ;;
       ExpenseManager.filter_expenses None None None (Some 3000) None) two_rows =
  run (ExpenseManager.filter_expenses None None None (Some 3000) None) two_rows.
Proof.
  apply (filter_expenses_repeatable None None None (Some 3000) None two_rows).
  reflexivity.
Defined.
